(** * CSV Book Data Editor: the in-memory table engine

    A shallow embedding of the table logic of the editor
    ([DataTable.tsx], [CsvUpload.tsx], [CsvManager]) and the properties
    of its specification.

    Conventions of the embedding.
    - A JavaScript string is a [string]; one character stands for one
      code unit below 256.  Operations whose result depends on Unicode
      tables or on the locale are fields of the class [Host].
    - A JavaScript number is an IEEE 754 binary64 value, [spec_float]
      with precision 53 and maximal exponent 1024.  Array lengths, page
      numbers and indices are integers and are kept in [nat] and [Z].
    - A JavaScript object is its identity together with its own
      enumerable properties in enumeration order.  Objects of this
      program are never mutated after their creation (every update
      builds a new object with spread syntax), so no store is needed:
      [===] on rows is equality of identities.  Own property values
      are strings, as the type [CsvRecord] says.  Rows are ordinary
      objects: reading a property they do not own gives the member of
      [Object.prototype] of that name when there is one, and
      [undefined] otherwise. *)

From Stdlib Require Import String Ascii List Bool Arith ZArith Lia.
From Stdlib Require Import QArith Qround Permutation DecimalString.
From Stdlib Require Import Floats.SpecFloat.
Import ListNotations.

Close Scope Q_scope.
Open Scope string_scope.
Open Scope list_scope.

(** ** Host-language primitives *)

Module Js.

(** *** Strings *)

(** [String.prototype.startsWith], on the tail of a string. *)
Fixpoint startsWith (s t : string) : bool :=
  match t, s with
  | EmptyString, _ => true
  | String _ _, EmptyString => false
  | String b t', String a s' => Ascii.eqb a b && startsWith s' t'
  end.

(** [s.includes(t)]: [t] occurs in [s] at some position. *)
Fixpoint includes (s t : string) : bool :=
  startsWith s t ||
  match s with
  | EmptyString => false
  | String _ s' => includes s' t
  end.

(** The substring relation that [includes] decides. *)
Definition Substring (t s : string) : Prop :=
  exists pre post, s = (pre ++ t ++ post)%string.

(** WhiteSpace and LineTerminator code units below 256. *)
Definition isWhiteSpace (c : ascii) : bool :=
  let n := nat_of_ascii c in
  ((9 <=? n)%nat && (n <=? 13)%nat) || (n =? 32)%nat || (n =? 160)%nat.

Fixpoint trimStart (s : string) : string :=
  match s with
  | String c s' => if isWhiteSpace c then trimStart s' else s
  | EmptyString => EmptyString
  end.

Fixpoint rev_string (s acc : string) : string :=
  match s with
  | EmptyString => acc
  | String c s' => rev_string s' (String c acc)
  end.

Definition trimEnd (s : string) : string :=
  rev_string (trimStart (rev_string s "")) "".

(** [String.prototype.trim]. *)
Definition trim (s : string) : string := trimEnd (trimStart s).

(** What the host decides: case mapping and collation follow Unicode
    and the locale, U+FEFF lies outside the modelled code units, and
    the text of a built-in function is chosen by the engine.
    [memberText k] is [String(Object.prototype[k])] for a member [k]:
    the source text of a function, or ["[object Object]"]. *)
Class Host := {
  toLowerCase : string -> string;
  localeCompare : string -> string -> Z;
  stripLeadingBOM : string -> string;
  memberText : string -> string;
  toLowerCase_empty : toLowerCase "" = "";
  memberText_not_empty : forall k, memberText k <> ""
}.

(** *** Objects with string properties *)

(** Own enumerable properties, in the order [Object.keys] lists them. *)
Definition Props := list (string * string).

Definition keys (o : Props) : list string := map fst o.
Definition values (o : Props) : list string := map snd o.

(** The own property [k] of [o], if it has one. *)
Fixpoint getProp (o : Props) (k : string) : option string :=
  match o with
  | [] => None
  | (k', v) :: o' => if String.eqb k' k then Some v else getProp o' k
  end.

(** [String(v || '')] for [v] a string or [undefined]. *)
Definition strOrEmpty (v : option string) : string :=
  match v with
  | Some s => s
  | None => ""
  end.

(** The properties every ordinary object inherits from
    [Object.prototype]; all are functions but the accessor [__proto__],
    which gives [Object.prototype] itself. *)
Definition objectPrototypeKeys : list string :=
  ["constructor"; "hasOwnProperty"; "isPrototypeOf"; "propertyIsEnumerable";
   "toLocaleString"; "toString"; "valueOf"; "__proto__";
   "__defineGetter__"; "__defineSetter__";
   "__lookupGetter__"; "__lookupSetter__"].

Definition isInherited (k : string) : bool :=
  existsb (String.eqb k) objectPrototypeKeys.

(** What a property read can give. *)
Inductive Value :=
| Undefined
| Str (s : string)
| Member (k : string).

(** [o[k]] on an ordinary object: the own property, else the inherited
    one, else [undefined]. *)
Definition get (o : Props) (k : string) : Value :=
  match getProp o k with
  | Some s => Str s
  | None => if isInherited k then Member k else Undefined
  end.

(** [String(v || '')] for what a property read gives: functions and
    objects are truthy. *)
Definition textOrEmpty {host : Host} (v : Value) : string :=
  match v with
  | Undefined => ""
  | Str s => s
  | Member k => memberText k
  end.

Definition isDigit (c : ascii) : bool :=
  let n := nat_of_ascii c in (48 <=? n)%nat && (n <=? 57)%nat.

Definition digitValue (c : ascii) : Z := (Z.of_nat (nat_of_ascii c) - 48)%Z.

Fixpoint allDigits (s : string) : bool :=
  match s with
  | EmptyString => true
  | String c s' => isDigit c && allDigits s'
  end.

Fixpoint digitsValue (acc : Z) (s : string) : Z :=
  match s with
  | EmptyString => acc
  | String c s' => digitsValue (10 * acc + digitValue c)%Z s'
  end.

(** A property key is an array index when it is the canonical decimal
    form of an integer below 2^32 - 1; such keys are enumerated first,
    in ascending numeric order. *)
Definition arrayIndex (k : string) : option Z :=
  match k with
  | EmptyString => None
  | String c rest =>
      if allDigits k && (negb (Ascii.eqb c "0") || String.eqb rest "") &&
         (digitsValue 0%Z k <? 4294967295)%Z
      then Some (digitsValue 0%Z k)
      else None
  end.

(** Where a new own property lands among the existing ones. *)
Fixpoint addProp (o : Props) (k v : string) : Props :=
  match arrayIndex k, o with
  | None, _ => o ++ [(k, v)]
  | Some _, [] => [(k, v)]
  | Some n, (k', v') :: o' =>
      match arrayIndex k' with
      | Some n' =>
          if (n' <? n)%Z then (k', v') :: addProp o' k v
          else (k, v) :: o
      | None => (k, v) :: o
      end
  end.

Fixpoint replaceProp (o : Props) (k v : string) : Props :=
  match o with
  | [] => []
  | (k', v') :: o' =>
      if String.eqb k' k then (k', v) :: o'
      else (k', v') :: replaceProp o' k v
  end.

(** [{ ...o, [k]: v }]: the copy keeps the properties of [o] in their
    order; an existing [k] keeps its place, a new one is added. *)
Definition setProp (o : Props) (k v : string) : Props :=
  match getProp o k with
  | Some _ => replaceProp o k v
  | None => addProp o k v
  end.

(** *** Numbers *)

Definition Number := spec_float.
Definition prec : Z := 53.
Definition emax : Z := 1024.

Definition NaN : Number := S754_nan.

Definition isNaN (x : Number) : bool :=
  match x with
  | S754_nan => true
  | _ => false
  end.

Definition isFinite (x : Number) : bool :=
  match x with
  | S754_zero _ | S754_finite _ _ _ => true
  | _ => false
  end.

(** [x - y] and unary [-x]. *)
Definition sub (x y : Number) : Number := SFsub prec emax x y.
Definition neg (x : Number) : Number := SFopp x.

(** The number value of an integer. *)
Definition ofZ (z : Z) : Number := binary_normalize prec emax z 0 false.

(** The number value of [m * 10^e], rounded to nearest, ties to even;
    the sign is kept on zero. *)
Definition ofDecimal (negative : bool) (m e : Z) : Number :=
  match m with
  | Zpos p =>
      match e with
      | Z0 => binary_round prec emax negative p 0
      | Zpos k => binary_round prec emax negative (p * 10 ^ k)%positive 0
      | Zneg k =>
          SFdiv prec emax (S754_finite negative p 0)
                (S754_finite false (10 ^ k)%positive 0)
      end
  | _ => S754_zero negative
  end.

(** The longest prefix of decimal digits, and what follows it. *)
Fixpoint spanDigits (s : string) : string * string :=
  match s with
  | String c s' =>
      if isDigit c
      then let (ds, rest) := spanDigits s' in (String c ds, rest)
      else (EmptyString, s)
  | EmptyString => (EmptyString, EmptyString)
  end.

Fixpoint dropChars (n : nat) (s : string) : string :=
  match n, s with
  | S n', String _ s' => dropChars n' s'
  | _, _ => s
  end.

Definition scanSign (s : string) : bool * string :=
  match s with
  | String "+" r => (false, r)
  | String "-" r => (true, r)
  | _ => (false, s)
  end.

(** ExponentPart, when one starts here: its value and what follows. *)
Definition scanExponent (s : string) : Z * string :=
  match s with
  | String c s1 =>
      if Ascii.eqb c "e" || Ascii.eqb c "E" then
        let (negative, s2) := scanSign s1 in
        let (ds, rest) := spanDigits s2 in
        match ds with
        | EmptyString => (0%Z, s)
        | _ => ((if negative then - digitsValue 0 ds else digitsValue 0 ds)%Z,
                rest)
        end
      else (0%Z, s)
  | EmptyString => (0%Z, s)
  end.

Inductive StrDecimalLiteral :=
| LitInfinity (negative : bool)
| LitDecimal (negative : bool) (mantissa exponent : Z).

(** The longest prefix that is a StrDecimalLiteral, and what follows. *)
Definition scanLiteral (s : string) : option (StrDecimalLiteral * string) :=
  let (negative, s1) := scanSign s in
  if startsWith s1 "Infinity" then
    Some (LitInfinity negative, dropChars 8 s1)
  else
    let (ip, r1) := spanDigits s1 in
    let (fp, r2) :=
      match r1 with
      | String "." r => spanDigits r
      | _ => (EmptyString, r1)
      end in
    match (ip ++ fp)%string with
    | EmptyString => None
    | ds =>
        let (e, rest) := scanExponent r2 in
        Some (LitDecimal negative (digitsValue 0 ds)
                         (e - Z.of_nat (String.length fp)), rest)
    end.

Definition numberOf (l : StrDecimalLiteral) : Number :=
  match l with
  | LitInfinity negative => S754_infinity negative
  | LitDecimal negative m e => ofDecimal negative m e
  end.

(** Whether a text begins, after leading white space, with a decimal
    literal. *)
Definition startsWithNumber (s : string) : bool :=
  match scanLiteral (trimStart s) with
  | Some _ => true
  | None => false
  end.

(** [parseFloat(s)]: leading white space is skipped, the longest
    literal prefix is converted, anything after it is ignored. *)
Definition parseFloat (input : string) : Number :=
  match scanLiteral (trimStart input) with
  | Some (l, _) => numberOf l
  | None => NaN
  end.

(** *** Arrays *)

(** [a[i] = x] for [i] below the length. *)
Fixpoint update {A : Type} (a : list A) (i : nat) (x : A) : list A :=
  match a, i with
  | [], _ => []
  | _ :: a', O => x :: a'
  | y :: a', S i' => y :: update a' i' x
  end.

Fixpoint findIndexFrom {A : Type} (p : A -> bool) (a : list A) (i : Z) : Z :=
  match a with
  | [] => (-1)%Z
  | x :: a' => if p x then i else findIndexFrom p a' (i + 1)%Z
  end.

(** [a.findIndex(p)]: the first index whose element satisfies [p],
    or -1. *)
Definition findIndex {A : Type} (p : A -> bool) (a : list A) : Z :=
  findIndexFrom p a 0%Z.

(** A relative index of [slice], clamped to the array. *)
Definition relIndex (len i : Z) : Z :=
  if (i <? 0)%Z then Z.max (len + i) 0%Z else Z.min i len.

(** [a.slice(start, end)]. *)
Definition slice {A : Type} (a : list A) (start stop : Z) : list A :=
  let len := Z.of_nat (length a) in
  let k := relIndex len start in
  let final := relIndex len stop in
  firstn (Z.to_nat (Z.max (final - k) 0)%Z) (skipn (Z.to_nat k) a).

(** [v > 0] for the value a comparator returned; NaN counts as 0. *)
Definition isPositive (v : Number) : bool :=
  match v with
  | S754_finite false _ _ | S754_infinity false => true
  | _ => false
  end.

(** [v < 0]. *)
Definition isNegative (v : Number) : bool :=
  match v with
  | S754_finite true _ _ | S754_infinity true => true
  | _ => false
  end.

Fixpoint insertSorted {A : Type} (cmp : A -> A -> Number) (x : A)
         (sorted : list A) : list A :=
  match sorted with
  | [] => [x]
  | y :: rest =>
      if isPositive (cmp x y) then y :: insertSorted cmp x rest
      else x :: sorted
  end.

(** [[...a].sort(cmp)]: a stable sort; an element moves behind exactly
    those following elements that the comparator puts before it. *)
Fixpoint sort {A : Type} (cmp : A -> A -> Number) (a : list A) : list A :=
  match a with
  | [] => []
  | x :: rest => insertSorted cmp x (sort cmp rest)
  end.

(** [a.forEach((x, index) => ...)] visits these pairs in order. *)
Definition entries {A : Type} (a : list A) : list (nat * A) :=
  combine (seq 0 (length a)) a.

End Js.

(** ** [types/csv] *)

Module Types.

Definition CsvRecord := Js.Props.

(** A row as the program holds it: an object with an identity. *)
Record RowObject := {
  oid : nat;
  props : CsvRecord
}.

(** [a === b] on row objects. *)
Definition sameObject (a b : RowObject) : bool := (oid a =? oid b)%nat.

Record CsvData := {
  headers : list string;
  rows : list RowObject;
  originalRows : list RowObject
}.

Record EditedCell := {
  rowIndex : nat;
  field : string;
  originalValue : Js.Value;
  newValue : Js.Value
}.

Inductive Direction := asc | desc.

Record SortConfig := {
  sortField : option string;
  direction : Direction
}.

End Types.

(** ** [components/csv/DataTable] *)

Module DataTable.
Import Js Types.

Definition ITEMS_PER_PAGE : Z := 50.

(** The component's own state ([useState]). *)
Record State := {
  currentPage : Z;
  searchTerm : string;
  sortConfig : SortConfig;
  editingCell : option (nat * string);
  editValue : string
}.

Definition initialState : State :=
  {| currentPage := 1;
     searchTerm := "";
     sortConfig := {| sortField := None; direction := asc |};
     editingCell := None;
     editValue := "" |}.

(** The setters of [useState]. *)
Definition setCurrentPage (st : State) (page : Z) : State :=
  {| currentPage := page;
     searchTerm := searchTerm st;
     sortConfig := sortConfig st;
     editingCell := editingCell st;
     editValue := editValue st |}.

Definition setSearchTerm (st : State) (term : string) : State :=
  {| currentPage := currentPage st;
     searchTerm := term;
     sortConfig := sortConfig st;
     editingCell := editingCell st;
     editValue := editValue st |}.

Definition setSortConfig (st : State) (c : SortConfig) : State :=
  {| currentPage := currentPage st;
     searchTerm := searchTerm st;
     sortConfig := c;
     editingCell := editingCell st;
     editValue := editValue st |}.

Definition setEditingCell (st : State) (cell : option (nat * string)) : State :=
  {| currentPage := currentPage st;
     searchTerm := searchTerm st;
     sortConfig := sortConfig st;
     editingCell := cell;
     editValue := editValue st |}.

Definition setEditValue (st : State) (value : string) : State :=
  {| currentPage := currentPage st;
     searchTerm := searchTerm st;
     sortConfig := sortConfig st;
     editingCell := editingCell st;
     editValue := value |}.

Section WithHost.
Context {host : Host}.

(** [String(row[field] || '')]. *)
Definition cellText (row : RowObject) (f : string) : string :=
  textOrEmpty (get (props row) f).

Definition headersOf (data : list RowObject) : list string :=
  match data with
  | row :: _ => keys (props row)
  | [] => []
  end.

(** The variables the [modifiedCells] callbacks close over: the two
    tables they read and the array they push onto. *)
Record DiffScope := {
  scopeData : list RowObject;
  scopeOriginalData : list RowObject;
  modified : list EditedCell
}.

(** The cell pushed for field [f] of row [index]. *)
Definition cellFor (index : nat) (row originalRow : RowObject) (f : string)
  : EditedCell :=
  {| rowIndex := index;
     field := f;
     originalValue := get (props originalRow) f;
     newValue := get (props row) f |}.

(** [modified.push(cell)]. *)
Definition push (sc : DiffScope) (cell : EditedCell) : DiffScope :=
  {| scopeData := scopeData sc;
     scopeOriginalData := scopeOriginalData sc;
     modified := modified sc ++ [cell] |}.

(** The body of the inner [forEach], over the fields of one row. *)
Definition visitField (index : nat) (row originalRow : RowObject)
           (sc : DiffScope) (f : string) : DiffScope :=
  if negb (String.eqb (cellText row f) (cellText originalRow f))
  then push sc (cellFor index row originalRow f)
  else sc.

(** The body of the outer [forEach], over the rows with their index. *)
Definition visitRow (sc : DiffScope) (entry : nat * RowObject) : DiffScope :=
  let (index, row) := entry in
  match nth_error (scopeOriginalData sc) index with
  | Some originalRow =>
      fold_left (visitField index row originalRow) (keys (props row)) sc
  | None => sc
  end.

Definition runModifiedCells (data originalData : list RowObject)
  : DiffScope :=
  fold_left visitRow (entries data)
            {| scopeData := data;
               scopeOriginalData := originalData;
               modified := [] |}.

Definition modifiedCells (data originalData : list RowObject)
  : list EditedCell :=
  modified (runModifiedCells data originalData).

Definition totalPages (filteredLength : nat) : Z :=
  Qceiling (inject_Z (Z.of_nat filteredLength) / inject_Z ITEMS_PER_PAGE).

Definition paginatedData (filteredAndSorted : list RowObject)
           (currentPage : Z) : list RowObject :=
  slice filteredAndSorted ((currentPage - 1) * ITEMS_PER_PAGE)%Z
        (currentPage * ITEMS_PER_PAGE)%Z.

(** The predicate of [data.filter]. *)
Definition rowMatches (searchTerm : string) (row : RowObject) : bool :=
  existsb
    (fun value =>
       includes (toLowerCase (strOrEmpty (Some value)))
                (toLowerCase searchTerm))
    (values (props row)).

(** The comparator handed to [sort]. *)
Definition compareRows (f : string) (d : Direction) (a b : RowObject)
  : Number :=
  let aValue := cellText a f in
  let bValue := cellText b f in
  let aNum := parseFloat aValue in
  let bNum := parseFloat bValue in
  if negb (isNaN aNum) && negb (isNaN bNum) then
    match d with
    | asc => sub aNum bNum
    | desc => sub bNum aNum
    end
  else
    let comparison := ofZ (localeCompare aValue bValue) in
    match d with
    | asc => comparison
    | desc => neg comparison
    end.

(** [if (sortConfig.field)]: neither [null] nor the empty string. *)
Definition activeSortField (c : SortConfig) : option string :=
  match sortField c with
  | Some f => if String.eqb f "" then None else Some f
  | None => None
  end.

(** The first stage, [data.filter(...)]. *)
Definition filterRows (searchTerm : string) (data : list RowObject)
  : list RowObject :=
  filter (rowMatches searchTerm) data.

Definition filteredAndSortedData (data : list RowObject)
           (searchTerm : string) (c : SortConfig) : list RowObject :=
  let filtered := filterRows searchTerm data in
  match activeSortField c with
  | Some f => sort (compareRows f (direction c)) filtered
  | None => filtered
  end.

(** The rows on screen. *)
Definition displayedRows (data : list RowObject) (st : State)
  : list RowObject :=
  paginatedData (filteredAndSortedData data (searchTerm st) (sortConfig st))
                (currentPage st).

Definition handleSort (st : State) (f : string) : State :=
  let prev := sortConfig st in
  setCurrentPage
    (setSortConfig st
       {| sortField := Some f;
          direction :=
            match sortField prev, direction prev with
            | Some prevField, asc =>
                if String.eqb prevField f then desc else asc
            | _, _ => asc
            end |})
    1.

Definition startEdit (st : State) (rowIndex : nat) (f currentValue : string)
  : State :=
  setEditValue (setEditingCell st (Some (rowIndex, f))) currentValue.

(** The row that [data.findIndex(d => d === filteredAndSortedData[rowIndex])]
    resolves; -1 when there is none. *)
Definition actualIndexOf (data : list RowObject) (st : State)
           (rowIndex : nat) : Z :=
  let target :=
    nth_error (filteredAndSortedData data (searchTerm st) (sortConfig st))
              rowIndex in
  findIndex
    (fun d => match target with
              | Some t => sameObject d t
              | None => false
              end)
    data.

(** [handleEdit]: what is handed to [onDataChange], if anything, and
    the component state afterwards.  [fresh] is the identity of the
    object the spread creates. *)
Definition handleEdit (data : list RowObject) (st : State) (fresh : nat)
           (rowIndex : nat) (f value : string)
  : option (list RowObject) * State :=
  let actualIndex := actualIndexOf data st rowIndex in
  if (actualIndex =? -1)%Z then (None, st)
  else
    let i := Z.to_nat actualIndex in
    let spread :=
      match nth_error data i with
      | Some old => props old
      | None => []
      end in
    let newData :=
      update data i {| oid := fresh; props := setProp spread f value |} in
    (Some newData, setEditingCell st None).

Definition isCellModified (data originalData : list RowObject) (st : State)
           (rowIndex : nat) (f : string) : bool :=
  let actualIndex := actualIndexOf data st rowIndex in
  existsb
    (fun cell =>
       (Z.of_nat (Types.rowIndex cell) =? actualIndex)%Z &&
       String.eqb (field cell) f)
    (modifiedCells data originalData).

End WithHost.

End DataTable.

(** ** [components/csv/CsvUpload] *)

Module CsvUpload.
Import Js Types.

(** What the parser hands to the [chunk] callback: [results.data] and
    [results.meta.fields]. *)
Record ChunkResults := {
  data : list CsvRecord;
  metaFields : option (list string)
}.

(** The objects of [results.data] are new ones. *)
Definition allocate (next : nat) (records : list CsvRecord)
  : list RowObject :=
  map (fun '(i, r) => {| oid := next + i; props := r |}) (entries records).

(** [JSON.parse(JSON.stringify(rows))]: new objects with the same
    string properties. *)
Definition jsonCopy (next : nat) (rows : list RowObject) : list RowObject :=
  allocate next (map props rows).

(** [Object.values(row).some(value => value && String(value).trim())]. *)
Definition isValidRow (row : RowObject) : bool :=
  existsb
    (fun value => negb (String.eqb value "") && negb (String.eqb (trim value) ""))
    (values (props row)).

(** The variables [startParsing] closes over, and the allocator. *)
Record ParseState := {
  allRows : list RowObject;
  parsedHeaders : list string;
  nextOid : nat
}.

Section WithHost.
Context {host : Host}.

Definition onChunk (ps : ParseState) (results : ChunkResults) : ParseState :=
  let headers :=
    match parsedHeaders ps, metaFields results with
    | [], Some fs => map (fun h => trim (stripLeadingBOM h)) fs
    | hs, _ => hs
    end in
  let chunkRows := allocate (nextOid ps) (data results) in
  let validChunkRows := filter isValidRow chunkRows in
  {| allRows := allRows ps ++ validChunkRows;
     parsedHeaders := headers;
     nextOid := nextOid ps + length (data results) |}.

Definition parseChunks (next : nat) (chunks : list ChunkResults)
  : ParseState :=
  fold_left onChunk chunks
            {| allRows := []; parsedHeaders := []; nextOid := next |}.

End WithHost.

(** How [processData] ends: [onDataLoaded(csvData)] is called; or the
    [catch] block reports a message with [setError] and [onError]; or
    an exception leaves a timer callback that nothing catches. *)
Inductive Outcome :=
| Loaded (csvData : CsvData)
| Reported (msg : string)
| Uncaught (msg : string).

(** [err.message || 'Failed to process CSV data.']. *)
Definition catchMessage (message : string) : string :=
  if String.eqb message "" then "Failed to process CSV data." else message.

Definition processData (next : nat) (rows : list RowObject)
           (headers : list string) : Outcome :=
  if (length headers =? 0)%nat then
    Reported (catchMessage "No column headers found.")
  else if (length rows =? 0)%nat then
    Reported (catchMessage "CSV has no data rows.")
  else
    let validRows := filter isValidRow rows in
    if (length validRows =? 0)%nat then
      Uncaught "No valid data rows found."
    else
      Loaded {| headers := headers;
                rows := validRows;
                originalRows := jsonCopy next validRows |}.

(** [complete]: the accumulated rows and headers go to [processData]. *)
Definition load {host : Host} (next : nat) (chunks : list ChunkResults)
  : Outcome :=
  let ps := parseChunks next chunks in
  processData (nextOid ps) (allRows ps) (parsedHeaders ps).

End CsvUpload.

(** ** [CsvManager] *)

Module CsvManager.
Import Js Types.

Record State := {
  csvData : option CsvData;
  error : option string
}.

(** The serializer of the CSV library, [Papa.unparse]. *)
Class Codec := {
  unparse : list CsvRecord -> string
}.

Definition handleDataLoaded (st : State) (d : CsvData) : State :=
  {| csvData := Some d; error := error st |}.

Definition handleDataChange (st : State) (newData : list RowObject) : State :=
  match csvData st with
  | Some d =>
      {| csvData := Some {| headers := headers d;
                            rows := newData;
                            originalRows := originalRows d |};
         error := error st |}
  | None => st
  end.

(** The text offered for download; [None] when nothing is loaded. *)
Definition handleDownload {codec : Codec} (st : State) : option string :=
  match csvData st with
  | Some d => Some (unparse (map props (rows d)))
  | None => None
  end.

Definition handleReset (next : nat) (st : State) : State :=
  match csvData st with
  | Some d =>
      {| csvData := Some {| headers := headers d;
                            rows := CsvUpload.jsonCopy next (originalRows d);
                            originalRows := originalRows d |};
         error := error st |}
  | None => st
  end.

Definition handleBackToUpload (st : State) : State :=
  {| csvData := None; error := None |}.

(** The working table and the original snapshot; both are empty while
    nothing is loaded. *)
Definition working (st : State) : list RowObject :=
  match csvData st with
  | Some d => rows d
  | None => []
  end.

Definition original (st : State) : list RowObject :=
  match csvData st with
  | Some d => originalRows d
  | None => []
  end.

(** What a state holds, apart from the identities of the working rows:
    the headers, the cells of the working table, the snapshot and the
    error message. *)
Definition contents (st : State)
  : option (list string * list CsvRecord * list RowObject) * option string :=
  (match csvData st with
   | Some d => Some (headers d, map props (rows d), originalRows d)
   | None => None
   end,
   error st).

End CsvManager.

(** ** The session: both components, driven by user events *)

Module App.
Import Js Types.

Record State := {
  manager : CsvManager.State;
  table : DataTable.State;
  (** the next unused object identity *)
  nextOid : nat
}.

Definition initial : State :=
  {| manager := {| CsvManager.csvData := None; CsvManager.error := None |};
     table := DataTable.initialState;
     nextOid := 0 |}.

Inductive Event :=
| FileParsed (chunks : list CsvUpload.ChunkResults)
| TypeSearch (term : string)
| ClickHeader (f : string)
| ClickPage (page : Z)
| ClickPrevious
| ClickNext
| ClickCell (rowIndex : nat) (f : string)
| TypeEdit (value : string)
| CommitEdit
| EscapeEdit
| ClickReset
| ClickBack.

(** The Download button: [onDownload] is [handleDownload]. *)
Definition download {codec : CsvManager.Codec} (st : State) : option string :=
  CsvManager.handleDownload (manager st).

Definition withTable (st : State) (t : DataTable.State) : State :=
  {| manager := manager st; table := t; nextOid := nextOid st |}.

Section WithHost.
Context {host : Host}.

Definition filteredLength (d : CsvData) (t : DataTable.State) : nat :=
  length (DataTable.filteredAndSortedData
            (rows d) (DataTable.searchTerm t) (DataTable.sortConfig t)).

(** The page buttons on screen. *)
Definition pageButtons (d : CsvData) (t : DataTable.State) : list Z :=
  let total := DataTable.totalPages (filteredLength d t) in
  if (1 <? total)%Z then
    filter (fun page => (page <=? total)%Z)
           (map (fun i => (Z.of_nat i + Z.max 1 (DataTable.currentPage t - 1))%Z)
                (seq 0 (Z.to_nat (Z.min 3 total))))
  else [].

(** A cell is on screen for every displayed row and every header. *)
Definition cellRendered (d : CsvData) (t : DataTable.State)
           (rowIndex : nat) (f : string) : bool :=
  (rowIndex <? length (DataTable.displayedRows (rows d) t))%nat &&
  existsb (String.eqb f) (DataTable.headersOf (rows d)).

(** The upload screen: a parsed file ends in [processData]. *)
Definition stepUpload (st : State) (chunks : list CsvUpload.ChunkResults)
  : State :=
  let ps := CsvUpload.parseChunks (nextOid st) chunks in
  let cleared := {| CsvManager.csvData := None; CsvManager.error := None |} in
  match CsvUpload.load (nextOid st) chunks with
  | CsvUpload.Loaded d =>
      {| manager := CsvManager.handleDataLoaded cleared d;
         table := DataTable.initialState;
         nextOid := CsvUpload.nextOid ps + length (rows d) |}
  | CsvUpload.Reported msg =>
      {| manager := {| CsvManager.csvData := None;
                       CsvManager.error := Some msg |};
         table := table st;
         nextOid := CsvUpload.nextOid ps |}
  | CsvUpload.Uncaught _ =>
      {| manager := cleared; table := table st;
         nextOid := CsvUpload.nextOid ps |}
  end.

(** [handleEdit] with [onDataChange] bound to [handleDataChange]. *)
Definition commitEdit (st : State) (d : CsvData) (rowIndex : nat)
           (f value : string) : State :=
  match DataTable.handleEdit (rows d) (table st) (nextOid st) rowIndex f
                             value with
  | (Some newData, t') =>
      {| manager := CsvManager.handleDataChange (manager st) newData;
         table := t';
         nextOid := S (nextOid st) |}
  | (None, t') => withTable st t'
  end.

(** The table screen. *)
Definition stepTable (st : State) (d : CsvData) (ev : Event) : State :=
  let t := table st in
  match ev with
  | FileParsed _ => st
  | TypeSearch term =>
      withTable st
        (DataTable.setCurrentPage (DataTable.setSearchTerm t term) 1)
  | ClickHeader f =>
      if existsb (String.eqb f) (DataTable.headersOf (rows d))
      then withTable st (DataTable.handleSort t f)
      else st
  | ClickPage page =>
      if existsb (Z.eqb page) (pageButtons d t)
      then withTable st (DataTable.setCurrentPage t page)
      else st
  | ClickPrevious =>
      if (1 <? DataTable.totalPages (filteredLength d t))%Z &&
         negb (DataTable.currentPage t =? 1)%Z
      then withTable st (DataTable.setCurrentPage t (Z.max 1 (DataTable.currentPage t - 1)))
      else st
  | ClickNext =>
      let total := DataTable.totalPages (filteredLength d t) in
      if (1 <? total)%Z && negb (DataTable.currentPage t =? total)%Z
      then withTable st (DataTable.setCurrentPage t (Z.min total (DataTable.currentPage t + 1)))
      else st
  | ClickCell rowIndex f =>
      if cellRendered d t rowIndex f then
        match nth_error (DataTable.displayedRows (rows d) t) rowIndex with
        | Some row =>
            withTable st (DataTable.startEdit t rowIndex f
                                              (DataTable.cellText row f))
        | None => st
        end
      else st
  | TypeEdit value =>
      match DataTable.editingCell t with
      | Some _ => withTable st (DataTable.setEditValue t value)
      | None => st
      end
  | CommitEdit =>
      match DataTable.editingCell t with
      | Some (rowIndex, f) =>
          if cellRendered d t rowIndex f
          then commitEdit st d rowIndex f (DataTable.editValue t)
          else st
      | None => st
      end
  | EscapeEdit =>
      match DataTable.editingCell t with
      | Some _ => withTable st (DataTable.setEditingCell t None)
      | None => st
      end
  | ClickReset =>
      match DataTable.modifiedCells (rows d) (originalRows d) with
      | [] => st
      | _ :: _ =>
          {| manager := CsvManager.handleReset (nextOid st) (manager st);
             table := t;
             nextOid := nextOid st + length (originalRows d) |}
      end
  | ClickBack =>
      {| manager := CsvManager.handleBackToUpload (manager st);
         table := DataTable.initialState;
         nextOid := nextOid st |}
  end.

Definition step (st : State) (ev : Event) : State :=
  match CsvManager.csvData (manager st), ev with
  | None, FileParsed chunks => stepUpload st chunks
  | None, _ => st
  | Some d, _ => stepTable st d ev
  end.

(** The state after a sequence of events, from a fresh session. *)
Definition run (events : list Event) : State := fold_left step events initial.

Definition reachable (st : State) : Prop := exists events, run events = st.

Definition working (st : State) : list RowObject :=
  CsvManager.working (manager st).

Definition original (st : State) : list RowObject :=
  CsvManager.original (manager st).

End WithHost.

End App.

(** A host for running the model on ASCII text. *)
Module AsciiHost.

Definition lowerChar (c : ascii) : ascii :=
  let n := nat_of_ascii c in
  if (65 <=? n)%nat && (n <=? 90)%nat then ascii_of_nat (n + 32) else c.

Fixpoint lower (s : string) : string :=
  match s with
  | EmptyString => EmptyString
  | String c s' => String (lowerChar c) (lower s')
  end.

Definition compareCodeUnits (a b : string) : Z :=
  match String.compare a b with
  | Lt => (-1)%Z
  | Eq => 0%Z
  | Gt => 1%Z
  end.

(** The texts of one engine: [function name() { [native code] }]. *)
Definition nativeText (k : string) : string :=
  if String.eqb k "__proto__" then "[object Object]"
  else "function " ++
       (if String.eqb k "constructor" then "Object" else k) ++
       "() { [native code] }".

#[export] Instance host : Js.Host :=
  {| Js.toLowerCase := lower;
     Js.localeCompare := compareCodeUnits;
     Js.stripLeadingBOM := fun s => s;
     Js.memberText := nativeText;
     Js.toLowerCase_empty := eq_refl;
     Js.memberText_not_empty :=
       ltac:(intro k; unfold nativeText;
             destruct (String.eqb k "__proto__"); discriminate) |}.

(** A serializer for cells without delimiters, quotes or line breaks:
    the header is taken from the first record. *)
Definition joinWith (sep : string) (cells : list string) : string :=
  String.concat sep cells.

Definition unparsePlain (records : list Types.CsvRecord) : string :=
  match records with
  | [] => ""
  | first :: _ =>
      let fields := Js.keys first in
      joinWith (String "013" (String "010" ""))
        (joinWith "," fields ::
         map (fun r => joinWith ","
                         (map (fun f => Js.textOrEmpty (Js.get r f)) fields))
             records)
  end.

#[export] Instance codec : CsvManager.Codec :=
  {| CsvManager.unparse := unparsePlain |}.

End AsciiHost.

(** ** The specification's wording, for comparison with the code *)

Module Spec.
Import Js Types.

(** "ceil(filtered-row-count / page size), clamped to at least 1". *)
Definition ceilDiv (n d : Z) : Z := ((n + d - 1) / d)%Z.

Definition totalPagesClamped (filteredLength : nat) : Z :=
  Z.max 1 (ceilDiv (Z.of_nat filteredLength) DataTable.ITEMS_PER_PAGE).

(** "parses fully as a finite decimal number": the whole string is one
    decimal literal and its value is finite. *)
Definition parsesFullyAsFiniteDecimal (s : string) : bool :=
  match scanLiteral s with
  | Some (LitDecimal negative m e, EmptyString) =>
      isFinite (ofDecimal negative m e)
  | _ => false
  end.

(** "the stringified value", "absent key treated as empty string". *)
Definition coerced (row : RowObject) (f : string) : string :=
  strOrEmpty (getProp (props row) f).

(** "If both values parse fully as finite decimal numbers, compare
    numerically; otherwise compare as strings using locale-aware
    ordering.  Direction flips the comparison sign." *)
Definition compareRows {host : Host} (f : string) (d : Direction)
           (a b : RowObject) : Number :=
  let aValue := coerced a f in
  let bValue := coerced b f in
  let ascending :=
    if parsesFullyAsFiniteDecimal aValue && parsesFullyAsFiniteDecimal bValue
    then sub (parseFloat aValue) (parseFloat bValue)
    else ofZ (localeCompare aValue bValue) in
  match d with
  | asc => ascending
  | desc => neg ascending
  end.





(** "edits submitted from a displayed row must be mapped back to the
    correct row in the unfiltered working table": the index in the
    working table of the row shown at [rowIndex] of the current page. *)
Definition displayedRowIndex {host : Host} (data : list RowObject)
           (st : DataTable.State) (rowIndex : nat) : Z :=
  findIndex
    (fun d => match nth_error (DataTable.displayedRows data st) rowIndex with
              | Some shown => sameObject d shown
              | None => false
              end)
    data.

End Spec.

(** ** Sample inputs *)

Module Samples.
Import Js Types.

(** The scenario of the specification: headers [id,title,price] and two
    rows. *)
Definition bookA : CsvRecord := [("id", "1"); ("title", "A"); ("price", "9.99")].
Definition bookB : CsvRecord := [("id", "2"); ("title", "B"); ("price", "abc")].

Definition twoBooks : CsvUpload.ChunkResults :=
  {| CsvUpload.data := [bookA; bookB];
     CsvUpload.metaFields := Some ["id"; "title"; "price"] |}.

Definition twoBookRows : list RowObject :=
  [{| oid := 0; props := bookA |}; {| oid := 1; props := bookB |}].

(** The session after the price of the second book was changed. *)
Definition editedSession : App.State :=
  App.run (host := AsciiHost.host)
          [App.FileParsed [twoBooks]; App.ClickCell 1 "price";
           App.TypeEdit "12.50"; App.CommitEdit].

(** A file of 51 rows, one more than a page holds. *)
Definition numbered (i : nat) : CsvRecord :=
  [("id", NilZero.string_of_uint (Nat.to_uint i)); ("title", "T")].

Definition fiftyOneRows : CsvUpload.ChunkResults :=
  {| CsvUpload.data := map numbered (seq 0 51);
     CsvUpload.metaFields := Some ["id"; "title"] |}.

(** Two price cells that start with digits and are not numbers. *)
Definition rowTwelve : RowObject :=
  {| oid := 0; props := [("price", "12abc")] |}.
Definition rowThree : RowObject :=
  {| oid := 1; props := [("price", "3xyz")] |}.

(** Two dates of the same year, the later one first. *)
Definition rowMarch : RowObject :=
  {| oid := 0; props := [("published", "2021-03-01")] |}.
Definition rowJanuary : RowObject :=
  {| oid := 1; props := [("published", "2021-01-05")] |}.

(** The file [id,title,price / 1,A]: its only row is shorter than the
    header, so the parser gives it two properties. *)
Definition shortRow : CsvRecord := [("id", "1"); ("title", "A")].

Definition threeHeaders : CsvUpload.ChunkResults :=
  {| CsvUpload.data := [shortRow];
     CsvUpload.metaFields := Some ["id"; "title"; "price"] |}.

(** The file [id,title / 1,A]. *)
Definition twoHeaders : CsvUpload.ChunkResults :=
  {| CsvUpload.data := [shortRow];
     CsvUpload.metaFields := Some ["id"; "title"] |}.




End Samples.

(** ** Invariants of the session *)

Module Invariants.
Import Js Types.

(** What holds of the rows gathered so far, after every chunk. *)
Record Gathered (ps : CsvUpload.ParseState) : Prop := {
  gathered_valid :
    Forall (fun row => CsvUpload.isValidRow row = true) (CsvUpload.allRows ps);
  gathered_distinct : NoDup (map oid (CsvUpload.allRows ps));
  gathered_fresh :
    Forall (fun row => oid row < CsvUpload.nextOid ps) (CsvUpload.allRows ps)
}.

(** What holds of every state a session reaches. *)
Record WellFormed (st : App.State) : Prop := {
  wf_lengths : length (App.working st) = length (App.original st);
  wf_columns : Forall (fun row => props row <> []) (App.working st);
  wf_snapshot_columns : Forall (fun row => props row <> []) (App.original st);
  wf_distinct : NoDup (map oid (App.working st));
  wf_fresh : Forall (fun row => oid row < App.nextOid st) (App.working st)
}.

Section WithHost.
Context {host : Host}.

(** What an event can do to the tables: nothing, a load, an edit, a
    reset, or the return to the upload screen. *)
Inductive Effect (st st' : App.State) : Prop :=
| ViewOnly :
    App.manager st' = App.manager st ->
    App.nextOid st' = App.nextOid st ->
    Effect st st'
| Upload chunks :
    CsvManager.csvData (App.manager st) = None ->
    st' = App.stepUpload st chunks ->
    Effect st st'
| Edit d rowIndex f value :
    CsvManager.csvData (App.manager st) = Some d ->
    st' = App.commitEdit st d rowIndex f value ->
    Effect st st'
| Reset d :
    CsvManager.csvData (App.manager st) = Some d ->
    App.manager st' = CsvManager.handleReset (App.nextOid st) (App.manager st) ->
    App.nextOid st' = App.nextOid st + length (originalRows d) ->
    Effect st st'
| Back :
    App.manager st' = CsvManager.handleBackToUpload (App.manager st) ->
    App.nextOid st' = App.nextOid st ->
    Effect st st'.

End WithHost.

End Invariants.

(** ** [components/ui/ProgressBar] *)

Module ProgressBar.
Import Js.

Definition mul (x y : Number) : Number := SFmul prec emax x y.
Definition div (x y : Number) : Number := SFdiv prec emax x y.

(** [Math.max(a, b)]: NaN if either is; +0 counts as larger than -0. *)
Definition mathMax (a b : Number) : Number :=
  match SFcompare a b with
  | None => NaN
  | Some Lt => b
  | Some Gt => a
  | Some Eq =>
      match a with
      | S754_zero true => b
      | _ => a
      end
  end.

(** [Math.min(a, b)]. *)
Definition mathMin (a b : Number) : Number :=
  match SFcompare a b with
  | None => NaN
  | Some Lt => a
  | Some Gt => b
  | Some Eq =>
      match b with
      | S754_zero true => b
      | _ => a
      end
  end.

(** [Math.min(Math.max((value / max) * 100, 0), 100)]. *)
Definition percentage (value max : Number) : Number :=
  mathMin (mathMax (mul (div value max) (ofZ 100)) (ofZ 0)) (ofZ 100).

End ProgressBar.

(** ** [hooks/useCsvPersistence] *)

Module Persistence.
Import Js Types.

Definition EXPIRY_MINUTES : Z := 10.

Record StoredCsvData := {
  data : CsvData;
  timestamp : Z;
  online : bool
}.

(** The object store [csvData], which only ever holds the one key
    [csv_data_persistent].  Putting and getting clone the value; a clone
    keeps which of its objects are the same, so the identities are kept
    as they label the rows. *)
Definition Store := option StoredCsvData.

(** Which requests to the database reject ([openDB] failing makes all of
    them reject).  Every rejection is caught by the hook. *)
Record Faults := {
  getRejects : bool;
  putRejects : bool;
  deleteRejects : bool
}.

Definition healthy : Faults :=
  {| getRejects := false; putRejects := false; deleteRejects := false |}.

(** [saveData(csvData)] at time [now] (milliseconds), with the
    [isOnline] the callback closed over. *)
Definition saveData (faults : Faults) (isOnline : bool) (now : Z)
           (db : Store) (csvData : CsvData) : Store :=
  if putRejects faults then db
  else Some {| data := csvData; timestamp := now; online := isOnline |}.

(** [(Date.now() - stored.timestamp) / (1000 * 60)].  The times are
    whole milliseconds, far below 2^53, so the comparison of the quotient
    with 10 comes out as it does on the exact quotient. *)
Definition ageInMinutes (now : Z) (stored : StoredCsvData) : Q :=
  inject_Z (now - timestamp stored) / inject_Z (1000 * 60).

(** [loadData()]: what it resolves to, and the store afterwards. *)
Definition loadData (faults : Faults) (now : Z) (db : Store)
  : option CsvData * Store :=
  if getRejects faults then (None, db)
  else
    match db with
    | None => (None, db)
    | Some stored =>
        if negb (online stored) &&
           negb (Qle_bool (ageInMinutes now stored) (inject_Z EXPIRY_MINUTES))
        then
          if deleteRejects faults then (None, db) else (None, None)
        else (Some (data stored), db)
    end.

Definition clearData (faults : Faults) (db : Store) : Store :=
  if deleteRejects faults then db else None.

(** [hasStoredData()]: [loadData() !== null], with its effect. *)
Definition hasStoredData (faults : Faults) (now : Z) (db : Store)
  : bool * Store :=
  let (loaded, db') := loadData faults now db in
  (match loaded with Some _ => true | None => false end, db').

End Persistence.

(** ** [components/csv/CsvUpload]: the dropped file *)

Module Dropzone.
Import Js.

(** What [onDrop] reads of a [File]. *)
Record File := {
  type : string;
  name : string;
  size : Z
}.

(** [s.endsWith(t)]. *)
Fixpoint endsWith (s t : string) : bool :=
  String.eqb s t ||
  match s with
  | String _ s' => endsWith s' t
  | EmptyString => false
  end.

(** How [onDrop] ends: nothing happens; a message is shown with
    [setError] and [onError]; or [processFile(file)] is called. *)
Inductive Outcome :=
| Nothing
| Refused (msg : string)
| Processed (file : File).

Definition onDrop (acceptedFiles : list File) : Outcome :=
  match acceptedFiles with
  | [] => Nothing
  | file :: _ =>
      if negb (String.eqb (type file) "text/csv") &&
         negb (endsWith (name file) ".csv")
      then Refused "Please upload a valid CSV file (.csv only)."
      else if (100 * 1024 * 1024 <? size file)%Z
      then Refused "File size too large. Please upload under 100MB."
      else Processed file
  end.

End Dropzone.

(** ** Notions used to state the further properties *)

Module Notions.
Import Js Types.

(** The page numbers 1 .. [totalPages]. *)
Definition pageNumbers (filteredLength : nat) : list Z :=
  map (fun i => Z.of_nat (S i))
      (seq 0 (Z.to_nat (DataTable.totalPages filteredLength))).

(** The filter of the chunk callback, on a record as parsed. *)
Definition recordIsValid (r : CsvRecord) : bool :=
  CsvUpload.isValidRow {| oid := 0; props := r |}.



(** A text with a character that is not white space. *)
Fixpoint hasInk (s : string) : bool :=
  match s with
  | EmptyString => false
  | String c s' => negb (isWhiteSpace c) || hasInk s'
  end.

(** The diff lists the cell at row index [r] and field [f]. *)
Definition Modified {host : Host} (data originalData : list RowObject)
           (r : nat) (f : string) : Prop :=
  exists cell, In cell (DataTable.modifiedCells data originalData) /\
               rowIndex cell = r /\ field cell = f.

(** The working table and the snapshot hold different objects, all of
    them older than the next identity. *)
Record Separate (st : App.State) : Prop := {
  sep_working : Forall (fun row => oid row < App.nextOid st) (App.working st);
  sep_original : Forall (fun row => oid row < App.nextOid st) (App.original st);
  sep_disjoint :
    forall row snap, In row (App.working st) -> In snap (App.original st) ->
                     oid row <> oid snap
}.

End Notions.

(** ** Further sample inputs *)

Module MoreSamples.
Import Js Types.

(** The table a state shows; empty before a load. *)
Definition tableOf (st : App.State) : CsvData :=
  match CsvManager.csvData (App.manager st) with
  | Some d => d
  | None => {| headers := []; rows := []; originalRows := [] |}
  end.

(** Two books of one genre. *)
Definition novels : list RowObject :=
  [{| oid := 0; props := [("title", "A"); ("genre", "novel")] |};
   {| oid := 1; props := [("title", "B"); ("genre", "novel")] |}].

(** The two books just loaded, and the same with a cell being edited. *)
Definition loadedSession : App.State :=
  App.run (host := AsciiHost.host) [App.FileParsed [Samples.twoBooks]].

Definition editingSession : App.State :=
  App.run (host := AsciiHost.host)
          [App.FileParsed [Samples.twoBooks]; App.ClickCell 1 "price";
           App.TypeEdit "12.50"].

(** The file [id,constructor / 1,x / 2]: the second row is shorter than
    the header, so the parser gives it one property. *)
Definition memberColumn : CsvUpload.ChunkResults :=
  {| CsvUpload.data := [[("id", "1"); ("constructor", "x")]; [("id", "2")]];
     CsvUpload.metaFields := Some ["id"; "constructor"] |}.

(** The user clicks the second row's cell of that column, clears the
    input and commits. *)
Definition clearedSession : App.State :=
  App.run (host := AsciiHost.host)
          [App.FileParsed [memberColumn]; App.ClickCell 1 "constructor";
           App.TypeEdit ""; App.CommitEdit].

Definition clearedRows : list RowObject :=
  [{| oid := 0; props := [("id", "1"); ("constructor", "x")] |};
   {| oid := 4; props := [("id", "2"); ("constructor", "")] |}].

Definition shortSnapshot : list RowObject :=
  [{| oid := 2; props := [("id", "1"); ("constructor", "x")] |};
   {| oid := 3; props := [("id", "2")] |}].

(** The table after [handleEdit(1, 'price', '12.50')] on the two books. *)
Definition twoBookRowsEdited : list RowObject :=
  [{| oid := 0; props := Samples.bookA |};
   {| oid := 2;
      props := [("id", "2"); ("title", "B"); ("price", "12.50")] |}].

End MoreSamples.

(** * Properties *)

(** ** Strings, objects and arrays *)

Module JsFacts.
Import Js.

Lemma startsWith_iff (s t : string) :
  startsWith s t = true <-> exists post, s = (t ++ post)%string.
Proof.
  revert s; induction t as [|b t IH]; intros s.
  - split; [intros _; now exists s | intros _; destruct s; reflexivity].
  - destruct s as [|a s]; simpl.
    + split; [discriminate | intros [post H]; discriminate].
    + rewrite andb_true_iff, Ascii.eqb_eq, IH.
      split.
      * intros [-> [post ->]]. now exists post.
      * intros [post H]. injection H as -> ->. split; [reflexivity | now exists post].
Qed.

Lemma includes_iff (s t : string) :
  includes s t = true <-> Substring t s.
Proof.
  unfold Substring.
  induction s as [|a s IH]; cbn [includes]; rewrite orb_true_iff.
  - split.
    + intros [H | H]; [|discriminate].
      apply startsWith_iff in H as [post H]. now exists "", post.
    + intros [pre [post H]]. left. apply startsWith_iff.
      destruct pre; [now exists post | discriminate].
  - rewrite IH. split.
    + intros [H | [pre [post H]]].
      * apply startsWith_iff in H as [post H]. now exists "", post.
      * exists (String a pre), post. simpl. now rewrite H.
    + intros [pre [post H]]. destruct pre as [|c pre].
      * left. apply startsWith_iff. now exists post.
      * right. simpl in H. injection H as _ H. now exists pre, post.
Qed.

Lemma includes_empty (s : string) : includes s "" = true.
Proof. destruct s; reflexivity. Qed.

(** Reading a property after [{ ...o, [k]: v }]. *)

Lemma getProp_replaceProp_same (o : Props) (k v : string) :
  getProp o k <> None -> getProp (replaceProp o k v) k = Some v.
Proof.
  induction o as [|[k' v'] o IH]; simpl; [congruence|].
  destruct (String.eqb k' k) eqn:E; simpl; rewrite E; auto.
Qed.

Lemma getProp_replaceProp_other (o : Props) (k v k2 : string) :
  k2 <> k -> getProp (replaceProp o k v) k2 = getProp o k2.
Proof.
  intros Hne. induction o as [|[k' v'] o IH]; simpl; [reflexivity|].
  destruct (String.eqb k' k) eqn:E; simpl.
  - apply String.eqb_eq in E. subst k'.
    destruct (String.eqb k k2) eqn:E2; [|reflexivity].
    apply String.eqb_eq in E2. congruence.
  - now rewrite IH.
Qed.

Lemma getProp_app (o1 o2 : Props) (k : string) :
  getProp (o1 ++ o2) k =
  match getProp o1 k with Some v => Some v | None => getProp o2 k end.
Proof.
  induction o1 as [|[k' v'] o1 IH]; simpl; [reflexivity|].
  destruct (String.eqb k' k); auto.
Qed.

Lemma getProp_addProp_same (o : Props) (k v : string) :
  getProp o k = None -> getProp (addProp o k v) k = Some v.
Proof.
  induction o as [|[k' v'] o IH]; intros Hnone.
  - simpl. destruct (arrayIndex k); simpl; now rewrite String.eqb_refl.
  - simpl in Hnone. destruct (String.eqb k' k) eqn:E; [discriminate|].
    simpl. destruct (arrayIndex k) as [n|].
    + destruct (arrayIndex k') as [n'|].
      * destruct (n' <? n)%Z; simpl.
        -- rewrite E. now apply IH.
        -- now rewrite String.eqb_refl.
      * simpl. now rewrite String.eqb_refl.
    + change ((k', v') :: o ++ [(k, v)]) with (((k', v') :: o) ++ [(k, v)]).
      rewrite getProp_app. simpl. rewrite E, Hnone, String.eqb_refl. reflexivity.
Qed.

Lemma getProp_addProp_other (o : Props) (k v k2 : string) :
  k2 <> k -> getProp (addProp o k v) k2 = getProp o k2.
Proof.
  intros Hne.
  assert (Hk : String.eqb k k2 = false).
  { apply String.eqb_neq. congruence. }
  induction o as [|[k' v'] o IH].
  - simpl. destruct (arrayIndex k); simpl; now rewrite Hk.
  - simpl. destruct (arrayIndex k) as [n|].
    + destruct (arrayIndex k') as [n'|].
      * destruct (n' <? n)%Z; simpl.
        -- now rewrite IH.
        -- now rewrite Hk.
      * simpl. now rewrite Hk.
    + change ((k', v') :: o ++ [(k, v)]) with (((k', v') :: o) ++ [(k, v)]).
      rewrite getProp_app. simpl.
      destruct (String.eqb k' k2); [reflexivity|].
      rewrite Hk. now destruct (getProp o k2).
Qed.

Lemma getProp_setProp_same (o : Props) (k v : string) :
  getProp (setProp o k v) k = Some v.
Proof.
  unfold setProp. destruct (getProp o k) eqn:E.
  - apply getProp_replaceProp_same. congruence.
  - now apply getProp_addProp_same.
Qed.

Lemma getProp_setProp_other (o : Props) (k v k2 : string) :
  k2 <> k -> getProp (setProp o k v) k2 = getProp o k2.
Proof.
  intros Hne. unfold setProp. destruct (getProp o k).
  - now apply getProp_replaceProp_other.
  - now apply getProp_addProp_other.
Qed.

Lemma setProp_not_empty (o : Props) (k v : string) : setProp o k v <> [].
Proof.
  unfold setProp. destruct (getProp o k) eqn:E.
  - destruct o as [|[k' v'] o]; simpl in *; [discriminate|].
    destruct (String.eqb k' k); discriminate.
  - destruct o as [|[k' v'] o]; simpl.
    + destruct (arrayIndex k); discriminate.
    + destruct (arrayIndex k); [|discriminate].
      destruct (arrayIndex k'); [|discriminate].
      destruct (_ <? _)%Z; discriminate.
Qed.

(** Assignment to an array element. *)

Lemma length_update {A} (a : list A) (i : nat) (x : A) :
  length (update a i x) = length a.
Proof.
  revert i; induction a as [|y a IH]; intros [|i]; simpl; auto.
Qed.

Lemma nth_error_update_same {A} (a : list A) (i : nat) (x : A) :
  i < length a -> nth_error (update a i x) i = Some x.
Proof.
  revert i; induction a as [|y a IH]; intros [|i] H; simpl in *; try lia; auto.
  apply IH. lia.
Qed.

Lemma nth_error_update_other {A} (a : list A) (i j : nat) (x : A) :
  j <> i -> nth_error (update a i x) j = nth_error a j.
Proof.
  revert i j; induction a as [|y a IH]; intros [|i] [|j] H; simpl; auto; try lia.
Qed.

(** [findIndex]: the first match, or -1 when nothing matches. *)

Lemma findIndexFrom_spec {A} (p : A -> bool) (a : list A) (k : Z) :
  (findIndexFrom p a k = -1 /\ (0 <= k -> forall x, In x a -> p x = false))%Z \/
  exists i x,
    findIndexFrom p a k = (k + Z.of_nat i)%Z /\
    nth_error a i = Some x /\ p x = true /\
    forall j y, j < i -> nth_error a j = Some y -> p y = false.
Proof.
  revert k; induction a as [|x a IH]; intros k; simpl.
  - left. split; [reflexivity | intros _ y []].
  - destruct (p x) eqn:E.
    + right. exists 0, x. repeat split; auto.
      * lia.
      * intros j y Hj. lia.
    + destruct (IH (k + 1)%Z) as [[H1 H2] | [i [y [H1 [H2 [H3 H4]]]]]].
      * left. split; [assumption|].
        intros Hk y [<- | Hin]; [assumption|]. apply H2; [lia | assumption].
      * right. exists (S i), y. repeat split; auto.
        -- rewrite H1. lia.
        -- intros [|j] z Hj Hz; simpl in Hz.
           ++ congruence.
           ++ apply (H4 j); [lia | assumption].
Qed.

Lemma findIndex_spec {A} (p : A -> bool) (a : list A) :
  (findIndex p a = (-1)%Z /\ forall x, In x a -> p x = false) \/
  exists i x,
    findIndex p a = Z.of_nat i /\
    nth_error a i = Some x /\ p x = true /\
    forall j y, j < i -> nth_error a j = Some y -> p y = false.
Proof.
  unfold findIndex.
  destruct (findIndexFrom_spec p a 0) as [[H1 H2] | [i [x [H1 H2]]]].
  - left. split; [assumption | apply H2; lia].
  - right. exists i, x. now rewrite H1.
Qed.

(** The pairs [forEach] visits. *)

Lemma in_combine_seq {A} (a : list A) (k i : nat) (x : A) :
  In (i, x) (combine (seq k (length a)) a) <->
  k <= i /\ nth_error a (i - k) = Some x.
Proof.
  revert k; induction a as [|y a IH]; intros k; simpl.
  - split; [intros [] | intros [_ H]]. destruct (i - k); discriminate.
  - rewrite IH. split.
    + intros [H | [H1 H2]].
      * injection H as -> ->. split; [lia|]. now rewrite Nat.sub_diag.
      * split; [lia|]. replace (i - k) with (S (i - S k)) by lia. assumption.
    + intros [H1 H2]. destruct (i - k) as [|n] eqn:E; simpl in H2.
      * left. f_equal; [lia | congruence].
      * right. split; [lia|]. replace (i - S k) with n by lia. assumption.
Qed.

Lemma in_entries {A} (a : list A) (i : nat) (x : A) :
  In (i, x) (entries a) <-> nth_error a i = Some x.
Proof.
  unfold entries. rewrite in_combine_seq, Nat.sub_0_r.
  split; [tauto | split; [lia | assumption]].
Qed.

End JsFacts.

(** ** The diff engine *)

Module DiffFacts.
Import Js Types DataTable JsFacts.

Section WithHost.
Context {host : Host}.

Lemma visitField_tables index row originalRow sc f :
  scopeData (visitField index row originalRow sc f) = scopeData sc /\
  scopeOriginalData (visitField index row originalRow sc f) =
  scopeOriginalData sc.
Proof.
  unfold visitField. destruct (negb _); simpl; auto.
Qed.

Lemma visitFields_tables index row originalRow fs sc :
  scopeData (fold_left (visitField index row originalRow) fs sc) = scopeData sc /\
  scopeOriginalData (fold_left (visitField index row originalRow) fs sc) =
  scopeOriginalData sc.
Proof.
  revert sc; induction fs as [|f fs IH]; intros sc; simpl; [auto|].
  destruct (IH (visitField index row originalRow sc f)) as [H1 H2].
  destruct (visitField_tables index row originalRow sc f) as [H3 H4].
  split; congruence.
Qed.

Lemma visitRow_tables sc entry :
  scopeData (visitRow sc entry) = scopeData sc /\
  scopeOriginalData (visitRow sc entry) = scopeOriginalData sc.
Proof.
  destruct entry as [index row]. unfold visitRow.
  destruct (nth_error _ index); [apply visitFields_tables | auto].
Qed.

Lemma visitRows_tables es sc :
  scopeData (fold_left visitRow es sc) = scopeData sc /\
  scopeOriginalData (fold_left visitRow es sc) = scopeOriginalData sc.
Proof.
  revert sc; induction es as [|e es IH]; intros sc; simpl; [auto|].
  destruct (IH (visitRow sc e)) as [H1 H2].
  destruct (visitRow_tables sc e) as [H3 H4].
  split; congruence.
Qed.

Lemma in_visitFields index row originalRow fs sc cell :
  In cell (modified (fold_left (visitField index row originalRow) fs sc)) <->
  In cell (modified sc) \/
  exists f, In f fs /\
            cellText row f <> cellText originalRow f /\
            cell = cellFor index row originalRow f.
Proof.
  revert sc; induction fs as [|f fs IH]; intros sc; simpl.
  - split; [auto | intros [H | [f [[] _]]]; assumption].
  - rewrite IH. unfold visitField at 1.
    destruct (String.eqb (cellText row f) (cellText originalRow f)) eqn:E; simpl.
    + apply String.eqb_eq in E. split.
      * intros [H | [g [Hg H]]]; [now left | right; exists g; tauto].
      * intros [H | [g [[<- | Hg] [Hne H]]]]; [now left | congruence |].
        right. exists g. tauto.
    + apply String.eqb_neq in E. rewrite in_app_iff. simpl. split.
      * intros [[H | [<- | []]] | [g [Hg H]]].
        -- now left.
        -- right. exists f. auto.
        -- right. exists g. tauto.
      * intros [H | [g [[<- | Hg] [Hne ->]]]].
        -- left. now left.
        -- left. right. now left.
        -- right. exists g. auto.
Qed.

Lemma in_visitRows es sc cell :
  In cell (modified (fold_left visitRow es sc)) <->
  In cell (modified sc) \/
  exists index row originalRow f,
    In (index, row) es /\
    nth_error (scopeOriginalData sc) index = Some originalRow /\
    In f (keys (props row)) /\
    cellText row f <> cellText originalRow f /\
    cell = cellFor index row originalRow f.
Proof.
  revert sc; induction es as [|[i r] es IH]; intros sc.
  - simpl. split; [auto | intros [H | [? [? [? [? [[] _]]]]]]; assumption].
  - cbn [fold_left]. rewrite IH.
    destruct (visitRow_tables sc (i, r)) as [_ Horig]. rewrite Horig.
    cbn [visitRow].
    destruct (nth_error (scopeOriginalData sc) i) as [o|] eqn:Eo.
    + rewrite in_visitFields. split.
      * intros [[H | [f [Hf [Hne ->]]]] | [i' [r' [o' [f [Hin H]]]]]].
        -- now left.
        -- right. exists i, r, o, f. simpl. auto.
        -- right. exists i', r', o', f. simpl. tauto.
      * intros [H | [i' [r' [o' [f [[Heq | Hin] [Ho [Hf [Hne ->]]]]]]]]].
        -- left. now left.
        -- injection Heq as <- <-. left. right. exists f.
           assert (o' = o) by congruence. subst o'. auto.
        -- right. exists i', r', o', f. auto.
    + split.
      * intros [H | [i' [r' [o' [f [Hin H]]]]]]; [now left|].
        right. exists i', r', o', f. simpl. tauto.
      * intros [H | [i' [r' [o' [f [[Heq | Hin] [Ho H]]]]]]]; [now left | |].
        -- injection Heq as <- <-. congruence.
        -- right. exists i', r', o', f. auto.
Qed.

(** Every cell of the diff, and nothing else. *)
Lemma in_modifiedCells data originalData cell :
  In cell (modifiedCells data originalData) <->
  exists row originalRow,
    nth_error data (rowIndex cell) = Some row /\
    nth_error originalData (rowIndex cell) = Some originalRow /\
    In (field cell) (keys (props row)) /\
    cellText row (field cell) <> cellText originalRow (field cell) /\
    cell = cellFor (rowIndex cell) row originalRow (field cell).
Proof.
  unfold modifiedCells, runModifiedCells. rewrite in_visitRows. simpl. split.
  - intros [[] | [i [r [o [f [Hin [Ho [Hf [Hne ->]]]]]]]]].
    apply in_entries in Hin. exists r, o. simpl. auto.
  - intros [r [o [Hr [Ho [Hf [Hne Hc]]]]]]. right.
    exists (rowIndex cell), r, o, (field cell).
    rewrite in_entries. auto.
Qed.

End WithHost.

End DiffFacts.

(** C4.  The claim has the diff list a cell exactly when the working
    and the original value differ as strings, an absent value counting
    as the empty string.  On the file [id,constructor / 1,x / 2] the
    second row has no cell in the column [constructor].  After the user
    has clicked that cell and committed the empty text, the working cell
    is the empty string and the original cell is absent, so the two are
    equal as the claim counts them; yet the diff of the code lists the
    cell, on every host, because the read of the absent original cell
    gives the inherited member [Object.prototype.constructor]. *)
Theorem cleared_cell_of_inherited_column_is_listed :
  let st := MoreSamples.clearedSession in
  App.working st = MoreSamples.clearedRows /\
  App.original st = MoreSamples.shortSnapshot /\
  (forall r f row originalRow,
      nth_error MoreSamples.clearedRows r = Some row ->
      nth_error MoreSamples.shortSnapshot r = Some originalRow ->
      In f (Js.keys (Types.props row)) ->
      Spec.coerced row f = Spec.coerced originalRow f) /\
  forall host : Js.Host,
    DataTable.modifiedCells MoreSamples.clearedRows MoreSamples.shortSnapshot =
    [{| Types.rowIndex := 1;
        Types.field := "constructor";
        Types.originalValue := Js.Member "constructor";
        Types.newValue := Js.Str "" |}].
Proof.
  split; [reflexivity|]. split; [reflexivity|]. split.
  - intros r f row originalRow Hrow Horig Hf.
    destruct r as [|[|r]]; simpl in Hrow, Horig.
    + injection Hrow as <-. injection Horig as <-.
      simpl in Hf. destruct Hf as [<- | [<- | []]]; reflexivity.
    + injection Hrow as <-. injection Horig as <-.
      simpl in Hf. destruct Hf as [<- | [<- | []]]; reflexivity.
    + destruct r; discriminate.
  - intros host.
    unfold DataTable.modifiedCells, DataTable.runModifiedCells.
    cbn -[Js.memberText].
    unfold DataTable.visitField, DataTable.cellText. cbn -[Js.memberText].
    destruct (Js.memberText "constructor") eqn:E.
    + now apply Js.memberText_not_empty in E.
    + reflexivity.
Qed.

(** ** The view engine *)

Module ViewFacts.
Import Js Types DataTable JsFacts.

Lemma totalPages_div (n : nat) :
  totalPages n = (- ((- Z.of_nat n) / 50))%Z.
Proof.
  unfold totalPages, ITEMS_PER_PAGE, Qceiling, Qfloor, Qdiv, Qinv, Qmult,
    Qopp, inject_Z.
  simpl. rewrite Z.mul_1_r. reflexivity.
Qed.

Lemma totalPages_bounds (n : nat) :
  (50 * (totalPages n - 1) < Z.of_nat n <= 50 * totalPages n)%Z.
Proof.
  rewrite totalPages_div.
  pose proof (Z.div_mod (- Z.of_nat n) 50 ltac:(lia)) as Hdm.
  pose proof (Z.mod_pos_bound (- Z.of_nat n) 50 ltac:(lia)) as Hb.
  lia.
Qed.

Section WithHost.
Context {host : Host}.

Lemma rowMatches_iff (term : string) (row : RowObject) :
  rowMatches term row = true <->
  exists value, In value (values (props row)) /\
                Substring (toLowerCase term) (toLowerCase value).
Proof.
  unfold rowMatches. rewrite existsb_exists.
  split; intros [value [Hin H]]; exists value; (split; [assumption|]);
    simpl in *; now apply includes_iff.
Qed.

Lemma rowMatches_empty_term (row : RowObject) :
  props row <> [] -> rowMatches "" row = true.
Proof.
  unfold rowMatches. destruct (props row) as [|[k v] o]; [congruence|].
  intros _. simpl. now rewrite toLowerCase_empty, includes_empty.
Qed.

Lemma filterRows_empty_term (data : list RowObject) :
  Forall (fun row => props row <> []) data -> filterRows "" data = data.
Proof.
  unfold filterRows. induction 1 as [|row data Hrow _ IH]; simpl.
  - reflexivity.
  - now rewrite rowMatches_empty_term, IH.
Qed.

End WithHost.

End ViewFacts.

(** C5.  On a table whose rows all have at least one column, as every
    loaded working table has, the filter keeps a row exactly when one of
    its cell values, lower-cased, contains the lower-cased search term
    as a substring; and the empty search term keeps every row. *)
Theorem filter_keeps_rows_with_matching_cell
        {host : Js.Host} (data : list Types.RowObject)
        (Hcolumns : Forall (fun row => Types.props row <> []) data) :
  (forall (term : string) (row : Types.RowObject),
      In row (DataTable.filterRows term data) <->
      In row data /\
      exists value,
        In value (Js.values (Types.props row)) /\
        Js.Substring (Js.toLowerCase term)
                     (Js.toLowerCase (Js.strOrEmpty (Some value)))) /\
  DataTable.filterRows "" data = data.
Proof.
  split.
  - intros term row. unfold DataTable.filterRows.
    rewrite filter_In, ViewFacts.rowMatches_iff. reflexivity.
  - now apply ViewFacts.filterRows_empty_term.
Qed.

(** C3, as stated, fails for the empty view: no row gives zero pages,
    where the clamped count is one. *)
Lemma totalPages_of_empty_view_is_zero :
  DataTable.totalPages 0 = 0%Z /\
  Spec.totalPagesClamped 0 = 1%Z /\
  DataTable.totalPages 0 <> Spec.totalPagesClamped 0.
Proof.
  repeat split. discriminate.
Qed.

(** C3, amended.  For every filtered row count [n] the total page count
    is ceil(n / 50), the least number of pages of 50 that hold [n] rows,
    with no lower clamp: it is 0 when there is no row, and it agrees
    with the count clamped to at least 1 for every [n] of 1 or more. *)
Theorem totalPages_is_unclamped_ceiling (n : nat) :
  (50 * (DataTable.totalPages n - 1) < Z.of_nat n <= 50 * DataTable.totalPages n)%Z /\
  DataTable.totalPages n = Spec.ceilDiv (Z.of_nat n) DataTable.ITEMS_PER_PAGE /\
  DataTable.totalPages n =
  (if (n =? 0)%nat then 0%Z else Spec.totalPagesClamped n).
Proof.
  pose proof (ViewFacts.totalPages_bounds n) as Hb.
  assert (Hceil : DataTable.totalPages n =
                  Spec.ceilDiv (Z.of_nat n) DataTable.ITEMS_PER_PAGE).
  { unfold Spec.ceilDiv, DataTable.ITEMS_PER_PAGE.
    pose proof (Z.div_mod (Z.of_nat n + 50 - 1) 50 ltac:(lia)) as Hdm.
    pose proof (Z.mod_pos_bound (Z.of_nat n + 50 - 1) 50 ltac:(lia)) as Hm.
    lia. }
  split; [assumption|]. split; [assumption|].
  destruct (Nat.eqb_spec n 0) as [-> | Hn].
  - reflexivity.
  - unfold Spec.totalPagesClamped. rewrite <- Hceil. lia.
Qed.

(** ** The record store: copy, reset and edit *)

Module StoreFacts.
Import Js Types JsFacts.

Lemma props_allocate_from (f : nat -> nat) (records : list CsvRecord) (k : nat) :
  map props
      (map (fun '(i, r) => {| oid := f i; props := r |})
           (combine (seq k (length records)) records)) = records.
Proof.
  revert k; induction records as [|r records IH]; intros k; simpl.
  - reflexivity.
  - now rewrite IH.
Qed.

Lemma props_allocate (next : nat) (records : list CsvRecord) :
  map props (CsvUpload.allocate next records) = records.
Proof.
  apply (props_allocate_from (fun i => next + i) records 0).
Qed.

Lemma props_jsonCopy (next : nat) (rows : list RowObject) :
  map props (CsvUpload.jsonCopy next rows) = map props rows.
Proof. apply props_allocate. Qed.

Lemma length_jsonCopy (next : nat) (rows : list RowObject) :
  length (CsvUpload.jsonCopy next rows) = length rows.
Proof.
  rewrite <- (length_map props (CsvUpload.jsonCopy next rows)), props_jsonCopy.
  apply length_map.
Qed.

(** Rows at the same index of tables with equal cells have equal
    properties. *)
Lemma same_props_at (a b : list RowObject) (r : nat) (x y : RowObject) :
  map props a = map props b ->
  nth_error a r = Some x -> nth_error b r = Some y -> props x = props y.
Proof.
  intros Hmap Hx Hy.
  apply (map_nth_error props) in Hx. apply (map_nth_error props) in Hy.
  congruence.
Qed.

Lemma modifiedCells_same_props {host : Host} (a b : list RowObject) :
  map props a = map props b -> DataTable.modifiedCells a b = [].
Proof.
  intros Hmap. destruct (DataTable.modifiedCells a b) as [|cell rest] eqn:E;
    [reflexivity|].
  assert (Hin : In cell (DataTable.modifiedCells a b)) by (rewrite E; now left).
  apply DiffFacts.in_modifiedCells in Hin as [x [y [Hx [Hy [_ [Hne _]]]]]].
  exfalso. apply Hne. unfold DataTable.cellText.
  now rewrite (same_props_at a b _ x y Hmap Hx Hy).
Qed.

End StoreFacts.

(** C6.  [handleReset] is idempotent: a second reset leaves the headers,
    every cell of the working table, the snapshot and the error message
    as the first reset left them (the row objects are new ones each
    time).  After a reset the working table has the records of the
    snapshot, row by row with the same properties in the same order, so
    it has as many rows; the diff of the working table against the
    snapshot is empty, every working cell equals the snapshot cell at the
    same row and field as a string, and the snapshot is the one from
    before the reset. *)
Theorem handleReset_idempotent_and_clears_diff
        {host : Js.Host} (next next' : nat) (st : CsvManager.State) :
  let once := CsvManager.handleReset next st in
  let twice := CsvManager.handleReset next' once in
  CsvManager.contents twice = CsvManager.contents once /\
  map Types.props (CsvManager.working once) =
  map Types.props (CsvManager.original st) /\
  length (CsvManager.working once) = length (CsvManager.original st) /\
  DataTable.modifiedCells (CsvManager.working once) (CsvManager.original once) = [] /\
  (forall r f row originalRow,
      nth_error (CsvManager.working once) r = Some row ->
      nth_error (CsvManager.original once) r = Some originalRow ->
      DataTable.cellText row f = DataTable.cellText originalRow f) /\
  CsvManager.original once = CsvManager.original st.
Proof.
  unfold CsvManager.handleReset, CsvManager.contents, CsvManager.working,
    CsvManager.original.
  destruct st as [[d|] e]; simpl.
  - repeat split.
    + now rewrite !StoreFacts.props_jsonCopy.
    + apply StoreFacts.props_jsonCopy.
    + apply StoreFacts.length_jsonCopy.
    + apply StoreFacts.modifiedCells_same_props, StoreFacts.props_jsonCopy.
    + intros r f row originalRow Hrow Horig. unfold DataTable.cellText.
      now rewrite (StoreFacts.same_props_at _ _ r row originalRow
                     (StoreFacts.props_jsonCopy next _) Hrow Horig).
  - repeat split. intros [|r] f row originalRow H; discriminate.
Qed.

(** ** The edit controller *)

Module EditFacts.
Import Js Types JsFacts.

(** The two ways [handleEdit] ends. *)
Lemma handleEdit_cases
      {host : Host} (data : list RowObject) (st : DataTable.State)
      (fresh rowIndex : nat) (f value : string) :
  (DataTable.actualIndexOf data st rowIndex = (-1)%Z /\
   DataTable.handleEdit data st fresh rowIndex f value = (None, st)) \/
  (exists i old,
      DataTable.actualIndexOf data st rowIndex = Z.of_nat i /\
      nth_error data i = Some old /\
      DataTable.handleEdit data st fresh rowIndex f value =
      (Some (update data i {| oid := fresh;
                              props := setProp (props old) f value |}),
       DataTable.setEditingCell st None)).
Proof.
  unfold DataTable.handleEdit, DataTable.actualIndexOf.
  match goal with
  | |- context [findIndex ?p data] =>
      destruct (findIndex_spec p data)
        as [[Hnone _] | [i [old [Hi [Hold _]]]]]
  end.
  - left. rewrite Hnone. auto.
  - right. exists i, old. rewrite Hi.
    destruct (Z.eqb_spec (Z.of_nat i) (-1)); [lia|].
    now rewrite Nat2Z.id, Hold.
Qed.

Lemma in_update {A} (a : list A) (i : nat) (x z : A) :
  In z (update a i x) -> z = x \/ In z a.
Proof.
  revert i; induction a as [|y a IH]; intros [|i]; simpl; try tauto.
  - intros [H | H]; auto.
  - intros [H | H]; auto. destruct (IH i H); auto.
Qed.

Lemma Forall_update {A} (P : A -> Prop) (a : list A) (i : nat) (x : A) :
  Forall P a -> P x -> Forall P (update a i x).
Proof.
  intros Ha Hx. apply Forall_forall. intros z Hz.
  destruct (in_update a i x z Hz) as [-> | Hin]; [assumption|].
  now apply (proj1 (Forall_forall P a) Ha).
Qed.

(** Putting a new object into a table of distinct older ones. *)
Lemma NoDup_update_fresh (data : list RowObject) (i : nat) (x : RowObject) :
  NoDup (map oid data) ->
  Forall (fun row => oid row < oid x) data ->
  NoDup (map oid (update data i x)).
Proof.
  revert i; induction data as [|y data IH]; intros i Hnd Hlt.
  - destruct i; constructor.
  - inversion Hnd as [|? ? Hnotin Hnd']; subst.
    inversion Hlt as [|? ? Hy Hlt']; subst.
    destruct i as [|i]; simpl.
    + constructor; [|assumption].
      intros Hin. apply in_map_iff in Hin as [z [Hz Hin]].
      pose proof (proj1 (Forall_forall _ _) Hlt' z Hin). simpl in *. lia.
    + constructor; [|now apply IH].
      intros Hin. apply in_map_iff in Hin as [z [Hz Hin]].
      destruct (in_update _ _ _ _ Hin) as [-> | Hin'].
      * lia.
      * apply Hnotin. apply in_map_iff. now exists z.
Qed.

End EditFacts.

(** C7.  [handleEdit] either resolves no row, and then hands nothing to
    [onDataChange] and leaves the component state as it was, or resolves
    one row of the working table, and then the new table has the same
    length, holds the very same row object at every other index, and at
    the resolved index holds a row whose field [f] is the new value and
    whose every other field reads as before. *)
Theorem handleEdit_changes_one_field
        {host : Js.Host} (data : list Types.RowObject) (st : DataTable.State)
        (fresh rowIndex : nat) (f value : string) :
  match DataTable.handleEdit data st fresh rowIndex f value with
  | (None, st') =>
      DataTable.actualIndexOf data st rowIndex = (-1)%Z /\ st' = st
  | (Some newData, _) =>
      exists i old new,
        DataTable.actualIndexOf data st rowIndex = Z.of_nat i /\
        nth_error data i = Some old /\
        nth_error newData i = Some new /\
        length newData = length data /\
        (forall j, j <> i -> nth_error newData j = nth_error data j) /\
        Js.getProp (Types.props new) f = Some value /\
        (forall f', f' <> f ->
                    Js.getProp (Types.props new) f' =
                    Js.getProp (Types.props old) f')
  end.
Proof.
  destruct (EditFacts.handleEdit_cases data st fresh rowIndex f value)
    as [[Hnone ->] | [i [old [Hi [Hold ->]]]]].
  - auto.
  - assert (Hlt : i < length data).
    { apply nth_error_Some. congruence. }
    exists i, old,
      {| Types.oid := fresh;
         Types.props := Js.setProp (Types.props old) f value |}.
    split; [assumption|]. split; [assumption|]. repeat split.
    + now apply JsFacts.nth_error_update_same.
    + apply JsFacts.length_update.
    + intros j Hj. now apply JsFacts.nth_error_update_other.
    + apply JsFacts.getProp_setProp_same.
    + intros f' Hf'. now apply JsFacts.getProp_setProp_other.
Qed.

(** ** The session *)

Module SessionFacts.
Import Js Types JsFacts Invariants.

Section WithHost.
Context {host : Host}.

(** Induction over the states a session can reach. *)
Lemma reachable_ind (P : App.State -> Prop) :
  P App.initial ->
  (forall st ev, P st -> P (App.step st ev)) ->
  forall st, App.reachable st -> P st.
Proof.
  intros Hinit Hstep st [events <-]. unfold App.run.
  generalize App.initial Hinit.
  induction events as [|ev events IH]; intros st0 H0; simpl; auto.
Qed.

Lemma step_effect (st : App.State) (ev : App.Event) :
  Invariants.Effect st (App.step st ev).
Proof.
  unfold App.step.
  destruct (CsvManager.csvData (App.manager st)) as [d|] eqn:Ed.
  - destruct ev; simpl;
      try (apply ViewOnly; reflexivity);
      repeat match goal with
        | |- context [if ?c then _ else _] => destruct c
        | |- context [match ?x with _ => _ end] =>
            match x with
            | DataTable.editingCell _ => destruct x as [[? ?]|]
            | nth_error _ _ => destruct x
            end
        end;
      first [ apply ViewOnly; reflexivity
            | eapply Edit; [eassumption | reflexivity]
            | eapply Reset; [eassumption | reflexivity | reflexivity]
            | apply Back; reflexivity ].
  - destruct ev; try (apply ViewOnly; reflexivity).
    eapply Upload; [assumption | reflexivity].
Qed.

End WithHost.
End SessionFacts.

(** ** Loading a file *)

Module LoadFacts.
Import Js Types JsFacts Invariants.

Lemma oid_allocate_from (next : nat) (records : list CsvRecord) (k : nat) :
  map oid
      (map (fun '(i, r) => {| oid := next + i; props := r |})
           (combine (seq k (length records)) records)) =
  seq (next + k) (length records).
Proof.
  revert k; induction records as [|r records IH]; intros k; simpl.
  - reflexivity.
  - f_equal. rewrite IH. f_equal. lia.
Qed.

Lemma oid_allocate (next : nat) (records : list CsvRecord) :
  map oid (CsvUpload.allocate next records) = seq next (length records).
Proof.
  unfold CsvUpload.allocate, entries.
  rewrite oid_allocate_from. now rewrite Nat.add_0_r.
Qed.

Lemma oid_jsonCopy (next : nat) (rows : list RowObject) :
  map oid (CsvUpload.jsonCopy next rows) = seq next (length rows).
Proof.
  unfold CsvUpload.jsonCopy. now rewrite oid_allocate, length_map.
Qed.

Lemma NoDup_map_filter {A B} (g : A -> B) (p : A -> bool) (l : list A) :
  NoDup (map g l) -> NoDup (map g (filter p l)).
Proof.
  induction l as [|x l IH]; simpl; intros Hnd; [constructor|].
  inversion Hnd as [|? ? Hnotin Hnd']; subst.
  destruct (p x); simpl; [|auto].
  constructor; [|auto].
  intros Hin. apply Hnotin. apply in_map_iff in Hin as [z [Hz Hin]].
  apply filter_In in Hin as [Hin _]. apply in_map_iff. now exists z.
Qed.

Lemma filter_all {A} (p : A -> bool) (l : list A) :
  Forall (fun x => p x = true) l -> filter p l = l.
Proof.
  induction 1 as [|x l Hx _ IH]; simpl; [reflexivity|].
  now rewrite Hx, IH.
Qed.

Lemma Forall_filter {A} (p : A -> bool) (l : list A) :
  Forall (fun x => p x = true) (filter p l).
Proof.
  apply Forall_forall. intros x Hin. now apply filter_In in Hin.
Qed.

Lemma isValidRow_has_column (row : RowObject) :
  CsvUpload.isValidRow row = true -> props row <> [].
Proof.
  unfold CsvUpload.isValidRow. destruct (props row); [discriminate | discriminate].
Qed.

Section WithHost.
Context {host : Host}.

Lemma onChunk_gathered ps results :
  Gathered ps -> Gathered (CsvUpload.onChunk ps results).
Proof.
  intros [Hvalid Hdistinct Hfresh].
  assert (Hnew : forall row,
             In row (filter CsvUpload.isValidRow
                            (CsvUpload.allocate (CsvUpload.nextOid ps)
                                                (CsvUpload.data results))) ->
             CsvUpload.nextOid ps <= oid row <
             CsvUpload.nextOid ps + length (CsvUpload.data results)).
  { intros row Hin. apply filter_In in Hin as [Hin _].
    apply (in_map oid) in Hin. rewrite oid_allocate in Hin.
    apply in_seq in Hin. lia. }
  constructor; simpl.
  - apply Forall_app. split; [assumption | apply Forall_filter].
  - rewrite map_app. apply NoDup_app.
    + assumption.
    + apply NoDup_map_filter. rewrite oid_allocate. apply seq_NoDup.
    + intros n Hold Hin.
      apply in_map_iff in Hold as [a [<- Ha]].
      apply in_map_iff in Hin as [b [Hb Hin]].
      pose proof (proj1 (Forall_forall _ _) Hfresh a Ha) as Hlt.
      pose proof (Hnew b Hin). simpl in Hlt. lia.
  - apply Forall_app. split.
    + eapply Forall_impl; [|exact Hfresh]. simpl. intros; lia.
    + apply Forall_forall. intros row Hin. pose proof (Hnew row Hin). lia.
Qed.

Lemma fold_onChunk_gathered chunks ps :
  Gathered ps -> Gathered (fold_left CsvUpload.onChunk chunks ps).
Proof.
  revert ps; induction chunks as [|c chunks IH]; intros ps H; simpl.
  - assumption.
  - apply IH. now apply onChunk_gathered.
Qed.

Lemma parseChunks_gathered next chunks :
  Gathered (CsvUpload.parseChunks next chunks).
Proof.
  apply fold_onChunk_gathered. constructor; simpl; constructor.
Qed.

(** The rows that reach [processData] have passed its filter already. *)
Lemma parseChunks_all_valid next chunks :
  filter CsvUpload.isValidRow (CsvUpload.allRows (CsvUpload.parseChunks next chunks)) =
  CsvUpload.allRows (CsvUpload.parseChunks next chunks).
Proof.
  apply filter_all, parseChunks_gathered.
Qed.

(** The three ways [load] ends, in terms of what was gathered. *)
Lemma load_cases next chunks :
  let ps := CsvUpload.parseChunks next chunks in
  (CsvUpload.parsedHeaders ps = [] /\
   CsvUpload.load next chunks = CsvUpload.Reported "No column headers found.") \/
  (CsvUpload.parsedHeaders ps <> [] /\ CsvUpload.allRows ps = [] /\
   CsvUpload.load next chunks = CsvUpload.Reported "CSV has no data rows.") \/
  (CsvUpload.parsedHeaders ps <> [] /\ CsvUpload.allRows ps <> [] /\
   CsvUpload.load next chunks =
   CsvUpload.Loaded
     {| headers := CsvUpload.parsedHeaders ps;
        rows := CsvUpload.allRows ps;
        originalRows :=
          CsvUpload.jsonCopy (CsvUpload.nextOid ps) (CsvUpload.allRows ps) |}).
Proof.
  intros ps. pose proof (parseChunks_all_valid next chunks) as Hvalid.
  unfold CsvUpload.load, CsvUpload.processData. fold ps in Hvalid |- *.
  rewrite Hvalid.
  destruct (CsvUpload.parsedHeaders ps) as [|h hs]; simpl.
  - left. auto.
  - right. destruct (CsvUpload.allRows ps) as [|r rs]; simpl.
    + left. split; [discriminate | auto].
    + right. split; [discriminate|]. split; [discriminate | reflexivity].
Qed.

End WithHost.
End LoadFacts.

(** ** What every reachable session state satisfies *)

Module InvariantFacts.
Import Js Types JsFacts Invariants.

Lemma wellFormed_empty (st : App.State) :
  CsvManager.csvData (App.manager st) = None -> WellFormed st.
Proof.
  intros H. constructor; unfold App.working, App.original,
    CsvManager.working, CsvManager.original; rewrite H; constructor.
Qed.

Lemma columns_of_copy next (rows : list RowObject) :
  Forall (fun row => props row <> []) rows ->
  Forall (fun row => props row <> []) (CsvUpload.jsonCopy next rows).
Proof.
  intros H.
  apply (Forall_map props (fun o => o <> [])).
  rewrite StoreFacts.props_jsonCopy.
  now apply (Forall_map props (fun o => o <> [])).
Qed.

Lemma fresh_of_copy next (rows : list RowObject) :
  Forall (fun row => oid row < next + length rows) (CsvUpload.jsonCopy next rows).
Proof.
  apply (Forall_map oid (fun n => n < next + length rows)).
  rewrite LoadFacts.oid_jsonCopy. apply Forall_forall.
  intros n Hn. apply in_seq in Hn. lia.
Qed.

Section WithHost.
Context {host : Host}.

Lemma upload_wellFormed st chunks : WellFormed (App.stepUpload st chunks).
Proof.
  unfold App.stepUpload.
  destruct (LoadFacts.load_cases (App.nextOid st) chunks)
    as [[_ ->] | [[_ [_ ->]] | [_ [_ ->]]]];
    try (apply wellFormed_empty; reflexivity).
  destruct (LoadFacts.parseChunks_gathered (App.nextOid st) chunks)
    as [Hvalid Hdistinct Hfresh].
  assert (Hcols : Forall (fun row => props row <> [])
                         (CsvUpload.allRows
                            (CsvUpload.parseChunks (App.nextOid st) chunks))).
  { eapply Forall_impl; [|exact Hvalid].
    intros row. apply LoadFacts.isValidRow_has_column. }
  constructor; unfold App.working, App.original, CsvManager.working,
    CsvManager.original, CsvManager.handleDataLoaded;
    cbn [App.manager App.nextOid CsvManager.csvData rows originalRows].
  - now rewrite StoreFacts.length_jsonCopy.
  - assumption.
  - now apply columns_of_copy.
  - assumption.
  - eapply Forall_impl; [|exact Hfresh]. simpl. intros; lia.
Qed.

Lemma step_wellFormed st ev : WellFormed st -> WellFormed (App.step st ev).
Proof.
  intros [Hlen Hcols Hsnap Hdistinct Hfresh].
  destruct (SessionFacts.step_effect st ev)
    as [Hm Hn | chunks _ -> | d rowIndex f value Hd -> | d Hd Hm Hn | Hm Hn].
  - constructor; unfold App.working, App.original in *; rewrite ?Hm, ?Hn;
      assumption.
  - apply upload_wellFormed.
  - unfold App.working, App.original, CsvManager.working,
      CsvManager.original in *.
    rewrite Hd in *. unfold App.commitEdit.
    destruct (EditFacts.handleEdit_cases (rows d) (App.table st)
                (App.nextOid st) rowIndex f value)
      as [[_ ->] | [i [old [_ [Hold ->]]]]].
    + constructor; unfold App.working, App.original, CsvManager.working,
        CsvManager.original; simpl; rewrite Hd; assumption.
    + constructor; unfold App.working, App.original, CsvManager.working,
        CsvManager.original, CsvManager.handleDataChange; simpl;
        rewrite Hd; simpl.
      * now rewrite length_update.
      * apply EditFacts.Forall_update; [assumption|].
        simpl. apply setProp_not_empty.
      * assumption.
      * now apply EditFacts.NoDup_update_fresh.
      * apply EditFacts.Forall_update; simpl; [|lia].
        eapply Forall_impl; [|exact Hfresh]. simpl. intros; lia.
  - unfold App.working, App.original, CsvManager.working,
      CsvManager.original in *.
    rewrite Hd in *.
    constructor; unfold App.working, App.original, CsvManager.working,
      CsvManager.original; rewrite Hm, ?Hn;
      unfold CsvManager.handleReset; rewrite Hd;
      cbn [CsvManager.csvData rows originalRows].
    + apply StoreFacts.length_jsonCopy.
    + now apply columns_of_copy.
    + assumption.
    + rewrite LoadFacts.oid_jsonCopy. apply seq_NoDup.
    + apply fresh_of_copy.
  - apply wellFormed_empty. now rewrite Hm.
Qed.

Lemma reachable_wellFormed st : App.reachable st -> WellFormed st.
Proof.
  apply SessionFacts.reachable_ind.
  - apply wellFormed_empty. reflexivity.
  - intros s ev. apply step_wellFormed.
Qed.

End WithHost.
End InvariantFacts.

(** C8.  In every state a session can reach, the working table and the
    original snapshot have the same length.  A load that succeeds builds
    both from the same rows; and no event on the table screen other than
    leaving it changes the length of either table. *)
Theorem lengths_agree_at_all_times
        {host : Js.Host} (st : App.State) (Hreach : App.reachable st) :
  length (App.working st) = length (App.original st) /\
  (forall next chunks d,
      CsvUpload.load next chunks = CsvUpload.Loaded d ->
      length (Types.rows d) = length (Types.originalRows d) /\
      map Types.props (Types.originalRows d) = map Types.props (Types.rows d)) /\
  (forall ev,
      CsvManager.csvData (App.manager st) <> None ->
      CsvManager.csvData (App.manager (App.step st ev)) <> None ->
      length (App.working (App.step st ev)) = length (App.working st) /\
      length (App.original (App.step st ev)) = length (App.original st)).
Proof.
  destruct (InvariantFacts.reachable_wellFormed st Hreach) as [Hlen _ _ _ _].
  split; [assumption|]. split.
  - intros next chunks d Hload.
    destruct (LoadFacts.load_cases next chunks)
      as [[_ H] | [[_ [_ H]] | [_ [_ H]]]];
      rewrite H in Hload; try discriminate.
    injection Hload as <-. simpl.
    now rewrite StoreFacts.length_jsonCopy, StoreFacts.props_jsonCopy.
  - intros ev Hsome Hsome'.
    unfold App.working, App.original, CsvManager.working,
      CsvManager.original in *.
    destruct (SessionFacts.step_effect st ev)
      as [Hm Hn | chunks Hnone _ | d rowIndex f value Hd -> | d Hd Hm Hn | Hm Hn].
    + now rewrite Hm.
    + contradiction.
    + unfold App.commitEdit.
      destruct (EditFacts.handleEdit_cases (Types.rows d) (App.table st)
                  (App.nextOid st) rowIndex f value)
        as [[_ ->] | [i [old [_ [_ ->]]]]]; simpl.
      * auto.
      * unfold CsvManager.handleDataChange. rewrite Hd. simpl.
        now rewrite JsFacts.length_update.
    + rewrite Hm. unfold CsvManager.handleReset. rewrite Hd in *.
      cbn [CsvManager.csvData Types.rows Types.originalRows].
      now rewrite StoreFacts.length_jsonCopy.
    + rewrite Hm in Hsome'. now elim Hsome'.
Qed.

(** ** Load errors *)

Module LoadErrorFacts.
Import Js Types JsFacts.





Section WithHost.
Context {host : Host}.





End WithHost.
End LoadErrorFacts.


(** ** Export *)

(** C9, as stated, fails on the header row.  The files
    [id,title,price / 1,A] and [id,title / 1,A] load into the same
    working table under different header lists, and the export is
    computed from the working table alone: whatever the serializer and
    whatever way of reading the header row off its text, the header row
    cannot be the original header list of both. *)
Lemma download_header_is_not_the_original_header :
  ~ (exists (codec : CsvManager.Codec) (headerRow : string -> list string),
        forall (st : App.State) (d : Types.CsvData) (text : string),
          App.reachable (host := AsciiHost.host) st ->
          CsvManager.csvData (App.manager st) = Some d ->
          App.download st = Some text ->
          headerRow text = Types.headers d).
Proof.
  intros [codec [headerRow H]].
  pose (three := App.run (host := AsciiHost.host)
                         [App.FileParsed [Samples.threeHeaders]]).
  pose (two := App.run (host := AsciiHost.host)
                       [App.FileParsed [Samples.twoHeaders]]).
  pose (text := CsvManager.unparse [Samples.shortRow]).
  pose proof (H three _ text
                (ex_intro _ [App.FileParsed [Samples.threeHeaders]] eq_refl)
                eq_refl eq_refl) as H3.
  pose proof (H two _ text
                (ex_intro _ [App.FileParsed [Samples.twoHeaders]] eq_refl)
                eq_refl eq_refl) as H2.
  change (headerRow text = ["id"; "title"; "price"]) in H3.
  change (headerRow text = ["id"; "title"]) in H2.
  rewrite H3 in H2. discriminate H2.
Qed.

(** C9, amended.  The download serializes exactly the records of the
    working table, in their stored order; the text does not depend on
    the search term, the sort configuration or the current page, nor on
    the stored header list: the header row is whatever the serializer
    derives from the records. *)
Theorem download_serializes_working_table
        {codec : CsvManager.Codec}
        (m : CsvManager.State) (t t' : DataTable.State) (n n' : nat)
        (hs hs' : list string) (rs os : list Types.RowObject)
        (e : option string) :
  App.download {| App.manager := m; App.table := t; App.nextOid := n |} =
  App.download {| App.manager := m; App.table := t'; App.nextOid := n' |} /\
  App.download {| App.manager := m; App.table := t; App.nextOid := n |} =
  match CsvManager.csvData m with
  | Some d => Some (CsvManager.unparse (map Types.props (Types.rows d)))
  | None => None
  end /\
  CsvManager.handleDownload
    {| CsvManager.csvData :=
         Some {| Types.headers := hs; Types.rows := rs;
                 Types.originalRows := os |};
       CsvManager.error := e |} =
  Some (CsvManager.unparse (map Types.props rs)) /\
  CsvManager.handleDownload
    {| CsvManager.csvData :=
         Some {| Types.headers := hs'; Types.rows := rs;
                 Types.originalRows := os |};
       CsvManager.error := e |} =
  Some (CsvManager.unparse (map Types.props rs)).
Proof.
  repeat split.
Qed.

(** ** From the row on screen back to the working table *)

Module MappingFacts.
Import Js Types JsFacts.

Lemma insertSorted_perm {A} (cmp : A -> A -> Number) (x : A) (l : list A) :
  Permutation (insertSorted cmp x l) (x :: l).
Proof.
  induction l as [|y l IH]; simpl.
  - apply Permutation_refl.
  - destruct (isPositive (cmp x y)).
    + apply perm_trans with (y :: x :: l).
      * now apply perm_skip.
      * apply perm_swap.
    + apply Permutation_refl.
Qed.

(** Sorting rearranges the rows and does nothing else. *)
Lemma sort_perm {A} (cmp : A -> A -> Number) (l : list A) :
  Permutation (sort cmp l) l.
Proof.
  induction l as [|x l IH]; simpl.
  - apply perm_nil.
  - apply perm_trans with (x :: sort cmp l).
    + apply insertSorted_perm.
    + now apply perm_skip.
Qed.

(** In a table of distinct objects, [findIndex] with [===] finds the
    object looked for. *)
Lemma findIndex_sameObject (data : list RowObject) (target : RowObject) :
  NoDup (map oid data) -> In target data ->
  exists k, findIndex (fun d => sameObject d target) data = Z.of_nat k /\
            nth_error data k = Some target.
Proof.
  intros Hdistinct Hin.
  destruct (findIndex_spec (fun d => sameObject d target) data)
    as [[_ Hnone] | [k [x [Hk [Hx [Hsame _]]]]]].
  - specialize (Hnone target Hin). unfold sameObject in Hnone.
    now rewrite Nat.eqb_refl in Hnone.
  - exists k. split; [assumption|].
    apply Nat.eqb_eq in Hsame.
    apply In_nth_error in Hin as [j Hj].
    assert (Hkj : k = j).
    { apply (proj1 (NoDup_nth_error (map oid data)) Hdistinct).
      - rewrite length_map. apply nth_error_Some. congruence.
      - rewrite (map_nth_error oid _ _ Hx), (map_nth_error oid _ _ Hj).
        now rewrite Hsame. }
    subst j. assumption.
Qed.

(** The row at index [i] of page [page] is the row at index
    [(page - 1) * 50 + i] of the whole view. *)
Lemma nth_error_paginatedData (view : list RowObject) (page : Z) (i : nat) :
  (1 <= page)%Z ->
  nth_error (DataTable.paginatedData view page) i =
  if (i <? 50)%nat
  then nth_error view (Z.to_nat ((page - 1) * DataTable.ITEMS_PER_PAGE) + i)
  else None.
Proof.
  intros Hpage. unfold DataTable.paginatedData, slice, relIndex,
    DataTable.ITEMS_PER_PAGE.
  destruct (Z.ltb_spec ((page - 1) * 50) 0); [lia|].
  destruct (Z.ltb_spec (page * 50) 0); [lia|].
  rewrite nth_error_firstn, nth_error_skipn.
  set (len := Z.of_nat (length view)).
  destruct (Nat.ltb_spec i 50) as [Hi | Hi].
  - destruct (Z.le_gt_cases ((page - 1) * 50 + Z.of_nat i + 1) len) as [Hin | Hout].
    + replace (Z.to_nat (Z.min ((page - 1) * 50) len))
        with (Z.to_nat ((page - 1) * 50)) by lia.
      destruct (Nat.ltb_spec i (Z.to_nat (Z.max (Z.min (page * 50) len -
                                                Z.min ((page - 1) * 50) len) 0)));
        [reflexivity | lia].
    + assert (Hnone : nth_error view (Z.to_nat ((page - 1) * 50) + i) = None).
      { apply nth_error_None. unfold len in Hout. lia. }
      rewrite Hnone.
      destruct (Nat.ltb_spec i (Z.to_nat (Z.max (Z.min (page * 50) len -
                                                Z.min ((page - 1) * 50) len) 0)));
        [|reflexivity].
      apply nth_error_None. unfold len in *. lia.
  - destruct (Nat.ltb_spec i (Z.to_nat (Z.max (Z.min (page * 50) len -
                                              Z.min ((page - 1) * 50) len) 0)));
      [lia | reflexivity].
Qed.

Section WithHost.
Context {host : Host}.

Lemma in_filteredAndSortedData data term c row :
  In row (DataTable.filteredAndSortedData data term c) -> In row data.
Proof.
  unfold DataTable.filteredAndSortedData, DataTable.filterRows.
  destruct (DataTable.activeSortField c); intros Hin.
  - apply (Permutation_in _ (sort_perm _ _)) in Hin.
    now apply filter_In in Hin.
  - now apply filter_In in Hin.
Qed.

(** [handleEdit] resolves the row at index [rowIndex] of the whole
    view, the one that page 1 shows at that index. *)
Lemma actualIndexOf_resolves data st rowIndex target :
  NoDup (map oid data) ->
  nth_error (DataTable.filteredAndSortedData
               data (DataTable.searchTerm st) (DataTable.sortConfig st))
            rowIndex = Some target ->
  exists k, DataTable.actualIndexOf data st rowIndex = Z.of_nat k /\
            nth_error data k = Some target.
Proof.
  intros Hdistinct Htarget. unfold DataTable.actualIndexOf. rewrite Htarget.
  apply findIndex_sameObject; [assumption|].
  eapply in_filteredAndSortedData, nth_error_In, Htarget.
Qed.

(** The index the specification asks for is the index of the row on
    screen. *)
Lemma displayedRowIndex_resolves data st rowIndex shown :
  NoDup (map oid data) ->
  (1 <= DataTable.currentPage st)%Z ->
  nth_error (DataTable.displayedRows data st) rowIndex = Some shown ->
  exists k, Spec.displayedRowIndex data st rowIndex = Z.of_nat k /\
            nth_error data k = Some shown.
Proof.
  intros Hdistinct Hpage Hshown. unfold Spec.displayedRowIndex. rewrite Hshown.
  apply findIndex_sameObject; [assumption|].
  unfold DataTable.displayedRows in Hshown.
  rewrite nth_error_paginatedData in Hshown by assumption.
  destruct (rowIndex <? 50)%nat; [|discriminate].
  eapply in_filteredAndSortedData, nth_error_In, Hshown.
Qed.

(** On the first page the two agree: [handleEdit] resolves the row on
    screen. *)
Lemma first_page_edit_resolves_displayed_row data st rowIndex shown :
  NoDup (map oid data) ->
  DataTable.currentPage st = 1%Z ->
  nth_error (DataTable.displayedRows data st) rowIndex = Some shown ->
  DataTable.actualIndexOf data st rowIndex =
  Spec.displayedRowIndex data st rowIndex /\
  exists k, DataTable.actualIndexOf data st rowIndex = Z.of_nat k /\
            nth_error data k = Some shown.
Proof.
  intros Hdistinct Hpage Hshown.
  assert (Hview : nth_error (DataTable.filteredAndSortedData
                               data (DataTable.searchTerm st)
                               (DataTable.sortConfig st)) rowIndex = Some shown).
  { unfold DataTable.displayedRows in Hshown.
    rewrite nth_error_paginatedData in Hshown by lia.
    destruct (rowIndex <? 50)%nat; [|discriminate].
    now rewrite Hpage in Hshown. }
  split.
  - unfold DataTable.actualIndexOf, Spec.displayedRowIndex.
    now rewrite Hview, Hshown.
  - now apply actualIndexOf_resolves.
Qed.

End WithHost.
End MappingFacts.

(** ** Numbers read from text *)

Module NumberFacts.
Import Js.

Lemma shr_1_nonneg (mrs : shr_record) :
  (0 <= shr_m mrs)%Z -> (0 <= shr_m (shr_1 mrs))%Z.
Proof.
  destruct mrs as [m r s0]. simpl.
  destruct m as [|p|p]; simpl; try lia; destruct p; simpl; lia.
Qed.

Lemma iter_shr_1_nonneg (n : positive) (mrs : shr_record) :
  (0 <= shr_m mrs)%Z -> (0 <= shr_m (iter_pos shr_1 n mrs))%Z.
Proof.
  revert mrs; induction n as [n IH | n IH |]; intros mrs H; simpl.
  - apply IH, IH, shr_1_nonneg, H.
  - apply IH, IH, H.
  - apply shr_1_nonneg, H.
Qed.

Lemma shr_fexp_nonneg (m e : Z) (l : location) :
  (0 <= m)%Z -> (0 <= shr_m (fst (shr_fexp prec emax m e l)))%Z.
Proof.
  intros H. unfold shr_fexp, shr.
  assert (H0 : (0 <= shr_m (shr_record_of_loc m l))%Z).
  { destruct l as [|[ | | ]]; simpl; assumption. }
  destruct (_ - e)%Z; simpl; try assumption.
  now apply iter_shr_1_nonneg.
Qed.

Lemma round_nearest_even_nonneg (m : Z) (l : location) :
  (0 <= m)%Z -> (0 <= round_nearest_even m l)%Z.
Proof.
  intros H. destruct l as [|[ | | ]]; simpl; try lia.
  destruct (Z.even m); lia.
Qed.

(** Rounding a magnitude never gives NaN. *)
Lemma binary_round_aux_not_nan (s : bool) (m e : Z) (l : location) :
  (0 <= m)%Z -> isNaN (binary_round_aux prec emax s m e l) = false.
Proof.
  intros H. unfold binary_round_aux.
  pose proof (shr_fexp_nonneg m e l H) as H1.
  destruct (shr_fexp prec emax m e l) as [mrs' e']. simpl in H1.
  pose proof (shr_fexp_nonneg
                (round_nearest_even (shr_m mrs') (loc_of_shr_record mrs'))
                e' loc_Exact (round_nearest_even_nonneg _ _ H1)) as H2.
  destruct (shr_fexp prec emax _ e' loc_Exact) as [mrs'' e'']. simpl in H2.
  destruct (shr_m mrs'') as [|p|p]; [reflexivity | | lia].
  now destruct (e'' <=? emax - prec)%Z.
Qed.

Lemma binary_round_not_nan (s : bool) (m : positive) (e : Z) :
  isNaN (binary_round prec emax s m e) = false.
Proof.
  unfold binary_round. destruct (shl_align m e _) as [mz ez].
  apply binary_round_aux_not_nan. lia.
Qed.

Lemma ofDecimal_not_nan (negative : bool) (m e : Z) :
  isNaN (ofDecimal negative m e) = false.
Proof.
  unfold ofDecimal. destruct m as [|p|p]; try reflexivity.
  destruct e as [|k|k]; try apply binary_round_not_nan.
  unfold SFdiv, SFdiv_core_binary.
  set (m' := match _ with Z0 => Z.pos p | Zpos _ => _ | Zneg _ => _ end).
  assert (Hm' : (0 <= m')%Z).
  { unfold m'. destruct (_ - _)%Z; try lia. apply Z.shiftl_nonneg. lia. }
  pose proof (Z_div_mod m' (Z.pos (10 ^ k)) ltac:(lia)) as Hdiv.
  destruct (Z.div_eucl m' (Z.pos (10 ^ k))) as [q r].
  apply binary_round_aux_not_nan. nia.
Qed.

(** [parseFloat] gives NaN exactly when the text, after leading white
    space, does not begin with a decimal literal. *)
Lemma parseFloat_nan_iff (s : string) :
  isNaN (parseFloat s) = true <-> scanLiteral (trimStart s) = None.
Proof.
  unfold parseFloat. destruct (scanLiteral (trimStart s)) as [[l rest]|].
  - split; [|discriminate].
    destruct l; simpl; [discriminate|].
    now rewrite ofDecimal_not_nan.
  - split; reflexivity.
Qed.

End NumberFacts.

(** ** The comparator *)

Module SortFacts.
Import Js Types.

Lemma binary_round_opp (p : positive) (e : Z) :
  binary_round prec emax true p e = SFopp (binary_round prec emax false p e).
Proof.
  unfold binary_round. destruct (shl_align p e _) as [mz ez].
  unfold binary_round_aux.
  destruct (shr_fexp prec emax (Z.pos mz) ez loc_Exact) as [mrs' e'].
  destruct (shr_fexp prec emax _ e' loc_Exact) as [mrs'' e''].
  destruct (shr_m mrs''); try reflexivity.
  now destruct (e'' <=? emax - prec)%Z.
Qed.

Lemma binary_round_sign (s : bool) (p : positive) (e : Z) :
  isPositive (binary_round prec emax s p e) =
  isNegative (binary_round prec emax (negb s) p e).
Proof.
  destruct s; simpl; rewrite binary_round_opp;
    now destruct (binary_round prec emax false p e) as [[|]|[|]| |[|] ? ?].
Qed.

Lemma binary_normalize_sign (m e : Z) :
  isPositive (binary_normalize prec emax (- m) e false) =
  isNegative (binary_normalize prec emax m e false).
Proof.
  destruct m as [|p|p]; simpl; [reflexivity | |].
  - apply (binary_round_sign true).
  - apply (binary_round_sign false).
Qed.

(** Swapping the operands of a subtraction swaps the sign of the
    result. *)
Lemma sub_swap_sign (x y : Number) :
  isPositive (sub y x) = isNegative (sub x y).
Proof.
  unfold sub.
  destruct x as [sx|sx| |sx mx ex], y as [sy|sy| |sy my ey];
    try (destruct sx, sy; reflexivity);
    try (destruct sx; reflexivity);
    try (destruct sy; reflexivity);
    try reflexivity.
  unfold SFsub. rewrite (Z.min_comm ey ex).
  match goal with
  | |- isPositive (binary_normalize _ _ (?a - ?b)%Z _ _) = _ =>
      replace (a - b)%Z with (- (b - a))%Z by lia
  end.
  apply binary_normalize_sign.
Qed.

Lemma neg_sign (x : Number) : isPositive (neg x) = isNegative x.
Proof.
  now destruct x as [[|]|[|]| |[|] ? ?].
Qed.

Section WithHost.
Context {host : Host}.

(** Which comparison the code makes: the numeric one exactly when both
    cell texts begin with a decimal literal. *)
Lemma compareRows_cases (f : string) (d : Direction) (a b : RowObject) :
  let aValue := DataTable.cellText a f in
  let bValue := DataTable.cellText b f in
  DataTable.compareRows f d a b =
  if startsWithNumber aValue && startsWithNumber bValue then
    match d with
    | asc => sub (parseFloat aValue) (parseFloat bValue)
    | desc => sub (parseFloat bValue) (parseFloat aValue)
    end
  else
    match d with
    | asc => ofZ (localeCompare aValue bValue)
    | desc => neg (ofZ (localeCompare aValue bValue))
    end.
Proof.
  intros aValue bValue. unfold DataTable.compareRows. fold aValue bValue.
  assert (Hnan : forall s, negb (isNaN (parseFloat s)) = startsWithNumber s).
  { intros s. unfold startsWithNumber.
    pose proof (NumberFacts.parseFloat_nan_iff s) as Hiff.
    destruct (scanLiteral (trimStart s)) as [l|].
    - destruct (isNaN (parseFloat s)); [|reflexivity].
      destruct Hiff as [Hiff _]. discriminate (Hiff eq_refl).
    - destruct Hiff as [_ Hiff]. now rewrite (Hiff eq_refl). }
  now rewrite !Hnan.
Qed.

(** The descending comparison of two rows is positive exactly when the
    ascending one is negative. *)
Lemma compareRows_direction (f : string) (a b : RowObject) :
  isPositive (DataTable.compareRows f desc a b) =
  isNegative (DataTable.compareRows f asc a b).
Proof.
  unfold DataTable.compareRows.
  destruct (negb _ && negb _).
  - apply sub_swap_sign.
  - apply neg_sign.
Qed.

End WithHost.
End SortFacts.

(** ** Sorting *)

(** C2, at the price cells "12abc" and "3xyz".  Neither cell is a
    number, so the comparison should be the locale's string comparison;
    the code compares the leading digits as numbers, 12 - 3 = 9, and an
    ascending sort puts "3xyz" first where string order puts "12abc"
    first.  Two dates of one year compare as the equal numbers 2021 and
    stay in the order they had, where string order puts January first.
    "Infinity" is not finite and is compared numerically too, with the
    result NaN. *)
Theorem numeric_prefixes_are_compared_as_numbers :
  Spec.parsesFullyAsFiniteDecimal "12abc" = false /\
  Spec.parsesFullyAsFiniteDecimal "3xyz" = false /\
  (forall host : Js.Host,
      DataTable.compareRows "price" Types.asc Samples.rowTwelve Samples.rowThree =
      Js.ofZ 9 /\
      Spec.compareRows "price" Types.asc Samples.rowTwelve Samples.rowThree =
      Js.ofZ (Js.localeCompare "12abc" "3xyz")) /\
  DataTable.filteredAndSortedData
    (host := AsciiHost.host) [Samples.rowTwelve; Samples.rowThree] ""
    {| Types.sortField := Some "price"; Types.direction := Types.asc |} =
  [Samples.rowThree; Samples.rowTwelve] /\
  Js.sort (Spec.compareRows (host := AsciiHost.host) "price" Types.asc)
          [Samples.rowTwelve; Samples.rowThree] =
  [Samples.rowTwelve; Samples.rowThree] /\
  (forall host : Js.Host,
      DataTable.compareRows "published" Types.asc
                            Samples.rowMarch Samples.rowJanuary =
      Js.ofZ 0) /\
  DataTable.filteredAndSortedData
    (host := AsciiHost.host) [Samples.rowMarch; Samples.rowJanuary] ""
    {| Types.sortField := Some "published"; Types.direction := Types.asc |} =
  [Samples.rowMarch; Samples.rowJanuary] /\
  Js.sort (Spec.compareRows (host := AsciiHost.host) "published" Types.asc)
          [Samples.rowMarch; Samples.rowJanuary] =
  [Samples.rowJanuary; Samples.rowMarch] /\
  Spec.parsesFullyAsFiniteDecimal "Infinity" = false /\
  (forall host : Js.Host,
      DataTable.compareRows
        "price" Types.asc
        {| Types.oid := 0; Types.props := [("price", "Infinity")] |}
        {| Types.oid := 1; Types.props := [("price", "Infinity")] |} = Js.NaN).
Proof.
  repeat split.
Qed.

(** ** Editing a displayed row *)

(** C1, on the second page of a table of 51 rows.  The page shows one
    row, the last of the table; the user edits its title.  [handleEdit]
    looks the row up at its index within the page, finds the first row
    of the first page, and changes that one: row 0 of the working table
    gets the new title and row 50, the row on screen, is left as it
    was. *)
Theorem edit_on_second_page_changes_first_page_row :
  let before :=
    App.run (host := AsciiHost.host)
            [App.FileParsed [Samples.fiftyOneRows]; App.ClickNext;
             App.ClickCell 0 "title"; App.TypeEdit "X"] in
  let after := App.step (host := AsciiHost.host) before App.CommitEdit in
  DataTable.currentPage (App.table before) = 2%Z /\
  DataTable.editingCell (App.table before) = Some (0, "title") /\
  map Types.props
      (DataTable.displayedRows (host := AsciiHost.host)
                               (App.working before) (App.table before)) =
  [Samples.numbered 50] /\
  Spec.displayedRowIndex (host := AsciiHost.host)
                         (App.working before) (App.table before) 0 = 50%Z /\
  DataTable.actualIndexOf (host := AsciiHost.host)
                          (App.working before) (App.table before) 0 = 0%Z /\
  option_map Types.props (nth_error (App.working after) 0) =
  Some [("id", "0"); ("title", "X")] /\
  option_map Types.props (nth_error (App.working before) 0) =
  Some [("id", "0"); ("title", "T")] /\
  nth_error (App.working after) 50 = nth_error (App.working before) 50 /\
  option_map Types.props (nth_error (App.working after) 50) =
  Some [("id", "50"); ("title", "T")].
Proof.
  vm_compute. repeat split.
Qed.

(** ** The theorems at sample inputs *)

Lemma filter_keeps_rows_with_matching_cell_witness :
  Forall (fun row => Types.props row <> []) Samples.twoBookRows /\
  ((forall (term : string) (row : Types.RowObject),
       In row (DataTable.filterRows (host := AsciiHost.host) term
                                    Samples.twoBookRows) <->
       In row Samples.twoBookRows /\
       exists value,
         In value (Js.values (Types.props row)) /\
         Js.Substring (AsciiHost.lower term)
                      (AsciiHost.lower (Js.strOrEmpty (Some value)))) /\
   DataTable.filterRows (host := AsciiHost.host) "" Samples.twoBookRows =
   Samples.twoBookRows).
Proof.
  assert (H : Forall (fun row => Types.props row <> []) Samples.twoBookRows).
  { repeat constructor; discriminate. }
  split; [exact H|].
  exact (filter_keeps_rows_with_matching_cell
           (host := AsciiHost.host) Samples.twoBookRows H).
Defined.

Lemma lengths_agree_at_all_times_witness :
  App.reachable (host := AsciiHost.host) Samples.editedSession /\
  length (App.working Samples.editedSession) =
  length (App.original Samples.editedSession).
Proof.
  assert (H : App.reachable (host := AsciiHost.host) Samples.editedSession).
  { exists [App.FileParsed [Samples.twoBooks]; App.ClickCell 1 "price";
            App.TypeEdit "12.50"; App.CommitEdit]. reflexivity. }
  split; [exact H|].
  exact (proj1 (lengths_agree_at_all_times
                  (host := AsciiHost.host) Samples.editedSession H)).
Defined.


(** * Further properties of the code *)

(** ** Pages *)

Module PageFacts.
Import Js Types JsFacts.

(** A page from 1 on is a run of 50 rows. *)
Lemma paginatedData_run (view : list RowObject) (page : Z) :
  (1 <= page)%Z ->
  DataTable.paginatedData view page =
  firstn 50 (skipn (50 * Z.to_nat (page - 1)) view).
Proof.
  intros Hpage. unfold DataTable.paginatedData, slice, relIndex,
    DataTable.ITEMS_PER_PAGE.
  destruct (Z.ltb_spec ((page - 1) * 50) 0); [lia|].
  destruct (Z.ltb_spec (page * 50) 0); [lia|].
  set (len := Z.of_nat (length view)).
  destruct (Z.le_gt_cases len ((page - 1) * 50)) as [Hout | Hin].
  - rewrite !skipn_all2 by (unfold len in *; lia).
    now rewrite !firstn_nil.
  - replace (Z.to_nat (Z.min ((page - 1) * 50) len))
      with (50 * Z.to_nat (page - 1)) by lia.
    destruct (Z.le_gt_cases (page * 50) len) as [Hfull | Hlast].
    + f_equal. lia.
    + rewrite !firstn_all2; [reflexivity | |];
        rewrite length_skipn; unfold len in *; lia.
Qed.

Lemma concat_runs {A} (l : list A) (m : nat) :
  concat (map (fun i => firstn 50 (skipn (50 * i) l)) (seq 0 m)) =
  firstn (50 * m) l.
Proof.
  induction m as [|m IH].
  - reflexivity.
  - rewrite seq_S, map_app, concat_app, IH, Nat.add_0_l.
    cbn [map concat]. rewrite app_nil_r.
    replace (50 * S m) with (50 * m + 50) by lia.
    rewrite firstn_skipn_comm.
    replace (firstn (50 * m) l)
      with (firstn (50 * m) (firstn (50 * m + 50) l))
      by (rewrite firstn_firstn; f_equal; lia).
    apply firstn_skipn.
Qed.

End PageFacts.

(** X1.  The pages 1 to [totalPages] of a view, one after the other,
    are the view: paging shows every filtered row once, in order. *)
Theorem pages_partition_the_view (view : list Types.RowObject) :
  concat (map (DataTable.paginatedData view)
              (Notions.pageNumbers (length view))) = view.
Proof.
  unfold Notions.pageNumbers. rewrite map_map.
  rewrite (map_ext_in _ (fun i => firstn 50 (skipn (50 * i) view))).
  - rewrite PageFacts.concat_runs. apply firstn_all2.
    pose proof (ViewFacts.totalPages_bounds (length view)). lia.
  - intros i _. rewrite PageFacts.paginatedData_run by lia.
    do 2 f_equal. lia.
Qed.

(** X2.  For a page number from 1 on: the page holds at most 50 rows,
    row [i] of the page is row [(page - 1) * 50 + i] of the view, the
    page is empty exactly when it lies beyond [totalPages], and asking
    for such a page is no error. *)
Theorem page_is_a_run_of_the_view
        (view : list Types.RowObject) (page : Z) (Hpage : (1 <= page)%Z) :
  length (DataTable.paginatedData view page) <= 50 /\
  (forall i, i < 50 ->
             nth_error (DataTable.paginatedData view page) i =
             nth_error view (50 * Z.to_nat (page - 1) + i)) /\
  (DataTable.paginatedData view page = [] <->
   (DataTable.totalPages (length view) < page)%Z).
Proof.
  rewrite PageFacts.paginatedData_run by assumption.
  pose proof (ViewFacts.totalPages_bounds (length view)) as Hb.
  split; [|split].
  - rewrite length_firstn. lia.
  - intros i Hi. rewrite nth_error_firstn, nth_error_skipn.
    destruct (Nat.ltb_spec i 50); [reflexivity | lia].
  - split.
    + intros Hnil.
      assert (Hlen : length (firstn 50 (skipn (50 * Z.to_nat (page - 1)) view)) = 0)
        by now rewrite Hnil.
      rewrite length_firstn, length_skipn in Hlen. lia.
    + intros Hbeyond. rewrite skipn_all2 by lia. apply firstn_nil.
Qed.

Lemma page_is_a_run_of_the_view_witness :
  (1 <= 2)%Z /\
  length (DataTable.paginatedData
            (CsvUpload.allocate 0 (map Samples.numbered (seq 0 51))) 2) <= 50.
Proof.
  assert (H : (1 <= 2)%Z) by lia.
  split; [exact H|].
  exact (proj1 (page_is_a_run_of_the_view
                  (CsvUpload.allocate 0 (map Samples.numbered (seq 0 51))) 2 H)).
Defined.

(** ** The view *)

Module ViewOrderFacts.
Import Js Types JsFacts.

Lemma sub_self_not_positive (x : Number) : isPositive (sub x x) = false.
Proof.
  destruct x as [[|]|[|]| |s m e]; try reflexivity.
  unfold sub, SFsub. now rewrite Z.sub_diag.
Qed.

(** A comparator that never answers "after" leaves the order alone. *)
Lemma sort_nothing_to_move {A} (cmp : A -> A -> Number) (l : list A) :
  (forall x y, In x l -> In y l -> isPositive (cmp x y) = false) ->
  sort cmp l = l.
Proof.
  induction l as [|x l IH]; intros H; simpl; [reflexivity|].
  rewrite IH by (intros a b Ha Hb; apply H; now right).
  destruct l as [|y l]; simpl; [reflexivity|].
  rewrite (H x y); [reflexivity | now left | right; now left].
Qed.

Section WithHost.
Context {host : Host}.

Lemma compareRows_same_text (f : string) (d : Direction) (a b : RowObject) :
  (forall s, localeCompare s s = 0%Z) ->
  DataTable.cellText a f = DataTable.cellText b f ->
  isPositive (DataTable.compareRows f d a b) = false.
Proof.
  intros Hrefl Hsame. unfold DataTable.compareRows. rewrite Hsame, Hrefl.
  destruct (negb _ && negb _).
  - destruct d; apply sub_self_not_positive.
  - now destruct d.
Qed.

End WithHost.
End ViewOrderFacts.

(** X3.  The view is a rearrangement of exactly the rows the filter
    keeps: sorting neither drops nor repeats a row, every row of the
    view is a row of the table that matches the search term, and with
    no sort field (none chosen, or the empty string) the view is the
    filtered table in stored order. *)
Theorem view_rearranges_filtered_rows
        {host : Js.Host} (data : list Types.RowObject) (term : string)
        (c : Types.SortConfig) :
  Permutation (DataTable.filteredAndSortedData data term c)
              (DataTable.filterRows term data) /\
  (forall row,
      In row (DataTable.filteredAndSortedData data term c) <->
      In row data /\ DataTable.rowMatches term row = true) /\
  length (DataTable.filteredAndSortedData data term c) <= length data /\
  match Types.sortField c with
  | None | Some "" =>
      DataTable.filteredAndSortedData data term c = DataTable.filterRows term data
  | Some _ => True
  end.
Proof.
  assert (Hperm : Permutation (DataTable.filteredAndSortedData data term c)
                              (DataTable.filterRows term data)).
  { unfold DataTable.filteredAndSortedData.
    destruct (DataTable.activeSortField c).
    - apply MappingFacts.sort_perm.
    - apply Permutation_refl. }
  split; [assumption|]. split; [|split].
  - intros row. unfold DataTable.filterRows in Hperm.
    rewrite <- filter_In. split; intros Hin.
    + now apply (Permutation_in _ Hperm).
    + now apply (Permutation_in _ (Permutation_sym Hperm)).
  - rewrite (Permutation_length Hperm). unfold DataTable.filterRows.
    apply filter_length_le.
  - unfold DataTable.filteredAndSortedData, DataTable.activeSortField.
    destruct (Types.sortField c) as [[|ch f]|]; auto.
Qed.

(** X4.  Where the locale compares every string as equal to itself,
    sorting by a column in which all rows of the table hold the same
    text, in either direction, leaves the filtered rows in their stored
    order. *)
Theorem sorting_a_constant_column_keeps_the_order
        {host : Js.Host} (data : list Types.RowObject) (term f : string)
        (d : Types.Direction)
        (Hlocale : forall s, Js.localeCompare s s = 0%Z)
        (Hconstant : forall a b, In a data -> In b data ->
                                 DataTable.cellText a f = DataTable.cellText b f) :
  DataTable.filteredAndSortedData
    data term {| Types.sortField := Some f; Types.direction := d |} =
  DataTable.filterRows term data.
Proof.
  unfold DataTable.filteredAndSortedData, DataTable.activeSortField. simpl.
  destruct (String.eqb f ""); [reflexivity|].
  apply ViewOrderFacts.sort_nothing_to_move.
  intros a b Ha Hb. apply ViewOrderFacts.compareRows_same_text; [assumption|].
  unfold DataTable.filterRows in *.
  apply filter_In in Ha as [Ha _]. apply filter_In in Hb as [Hb _].
  now apply Hconstant.
Qed.

(** X5.  A click on a column header sorts by that column, goes back to
    page 1 and keeps the search term, the open editor and its text.  The
    direction after the click is descending exactly when the table was
    sorted by that same column ascending, and ascending in every other
    case: on a table not yet sorted, on one sorted by another column,
    and on one sorted by this column descending.  So a second click on
    the header turns the direction round, a click on another header
    starts ascending again, and two more clicks on a header bring back
    the state after the first. *)
Theorem header_click_toggles_direction (st : DataTable.State) (f g : string) :
  let once := DataTable.handleSort st f in
  let again := DataTable.handleSort once g in
  Types.sortField (DataTable.sortConfig once) = Some f /\
  (Types.direction (DataTable.sortConfig once) = Types.desc <->
   Types.sortField (DataTable.sortConfig st) = Some f /\
   Types.direction (DataTable.sortConfig st) = Types.asc) /\
  (Types.direction (DataTable.sortConfig once) = Types.asc <->
   Types.sortField (DataTable.sortConfig st) <> Some f \/
   Types.direction (DataTable.sortConfig st) = Types.desc) /\
  DataTable.currentPage once = 1%Z /\
  DataTable.searchTerm once = DataTable.searchTerm st /\
  DataTable.editingCell once = DataTable.editingCell st /\
  DataTable.editValue once = DataTable.editValue st /\
  Types.direction (DataTable.sortConfig again) =
  (if String.eqb f g
   then match Types.direction (DataTable.sortConfig once) with
        | Types.asc => Types.desc
        | Types.desc => Types.asc
        end
   else Types.asc) /\
  DataTable.handleSort (DataTable.handleSort again g) g = again.
Proof.
  unfold DataTable.handleSort. simpl.
  split; [reflexivity|]. split; [|split].
  - destruct (Types.sortField (DataTable.sortConfig st)) as [prev|];
      destruct (Types.direction (DataTable.sortConfig st));
      try (split; [discriminate | intros [H1 H2]; discriminate]).
    destruct (String.eqb_spec prev f) as [-> | Hne].
    + split; auto.
    + split; [discriminate | intros [H _]; congruence].
  - destruct (Types.sortField (DataTable.sortConfig st)) as [prev|];
      destruct (Types.direction (DataTable.sortConfig st));
      try (split; [intros _; now right | reflexivity]);
      try (split; [intros _; left; discriminate | reflexivity]).
    destruct (String.eqb_spec prev f) as [-> | Hne].
    + split; [discriminate | intros [H | H]; [congruence | discriminate]].
    + split; [intros _; left; congruence | reflexivity].
  - repeat split.
    + destruct (Types.sortField (DataTable.sortConfig st)) as [prev|];
        destruct (Types.direction (DataTable.sortConfig st));
        destruct (String.eqb f g); try reflexivity;
        destruct (String.eqb prev f); reflexivity.
    + rewrite !String.eqb_refl.
      destruct (Types.sortField (DataTable.sortConfig st)) as [prev|];
        destruct (Types.direction (DataTable.sortConfig st));
        destruct (String.eqb f g); try reflexivity;
        destruct (String.eqb prev f); reflexivity.
Qed.

(** ** The session, continued *)

Module SessionMoreFacts.
Import Js Types JsFacts Invariants Notions.

Section WithHost.
Context {host : Host}.

Lemma pageButtons_from_one (d : CsvData) (t : DataTable.State) (page : Z) :
  existsb (Z.eqb page) (App.pageButtons d t) = true -> (1 <= page)%Z.
Proof.
  intros H. apply existsb_exists in H as [p [Hin Heq]].
  apply Z.eqb_eq in Heq. subst p. unfold App.pageButtons in Hin.
  destruct (1 <? _)%Z; [|contradiction].
  apply filter_In in Hin as [Hin _].
  apply in_map_iff in Hin as [i [<- _]]. lia.
Qed.

Lemma step_page_from_one (st : App.State) (ev : App.Event) :
  (1 <= DataTable.currentPage (App.table st))%Z ->
  (1 <= DataTable.currentPage (App.table (App.step st ev)))%Z.
Proof.
  intros Hpage. unfold App.step.
  destruct (CsvManager.csvData (App.manager st)) as [d|] eqn:Ed.
  - destruct ev; simpl; try assumption; try lia.
    + destruct (existsb _ _); simpl; [lia | assumption].
    + destruct (existsb _ _) eqn:E; simpl; [|assumption].
      now apply pageButtons_from_one in E.
    + destruct (_ && _); simpl; [lia | assumption].
    + destruct (_ && _) eqn:E; simpl; [|assumption].
      apply andb_true_iff in E as [E _]. apply Z.ltb_lt in E. lia.
    + destruct (App.cellRendered _ _ _ _); [|assumption].
      destruct (nth_error _ _); simpl; assumption.
    + destruct (DataTable.editingCell _); simpl; assumption.
    + destruct (DataTable.editingCell _) as [[i f]|]; [|assumption].
      destruct (App.cellRendered _ _ _ _); [|assumption].
      unfold App.commitEdit.
      destruct (EditFacts.handleEdit_cases (rows d) (App.table st)
                  (App.nextOid st) i f (DataTable.editValue (App.table st)))
        as [[_ ->] | [k [old [_ [_ ->]]]]]; simpl; assumption.
    + destruct (DataTable.editingCell _); simpl; assumption.
    + destruct (DataTable.modifiedCells _ _); simpl; assumption.
  - destruct ev; try assumption.
    unfold App.stepUpload.
    destruct (CsvUpload.load _ _); simpl; try assumption; lia.
Qed.

Lemma reachable_page_from_one (st : App.State) :
  App.reachable st -> (1 <= DataTable.currentPage (App.table st))%Z.
Proof.
  apply (SessionFacts.reachable_ind
           (fun s => (1 <= DataTable.currentPage (App.table s))%Z)).
  - simpl. lia.
  - intros s ev. apply step_page_from_one.
Qed.

(** An event leaves the snapshot and the headers alone, unless it loads
    a file or leaves the table. *)
Lemma step_keeps_snapshot (st : App.State) (ev : App.Event) (d d' : CsvData) :
  CsvManager.csvData (App.manager st) = Some d ->
  CsvManager.csvData (App.manager (App.step st ev)) = Some d' ->
  originalRows d' = originalRows d /\ headers d' = headers d.
Proof.
  intros Hd Hd'.
  destruct (SessionFacts.step_effect st ev)
    as [Hm _ | chunks Hnone _ | d0 i f value Hd0 Hst | d0 Hd0 Hm _ | Hm _].
  - rewrite Hm, Hd in Hd'. now injection Hd' as <-.
  - congruence.
  - rewrite Hst in Hd'. unfold App.commitEdit in Hd'.
    destruct (EditFacts.handleEdit_cases (rows d0) (App.table st)
                (App.nextOid st) i f value)
      as [[_ Hr] | [k [old [_ [_ Hr]]]]]; rewrite Hr in Hd'; simpl in Hd'.
    + rewrite Hd in Hd'. now injection Hd' as <-.
    + unfold CsvManager.handleDataChange in Hd'. rewrite Hd in Hd'.
      simpl in Hd'. now injection Hd' as <-.
  - rewrite Hm in Hd'. unfold CsvManager.handleReset in Hd'.
    rewrite Hd in Hd'. cbn [CsvManager.csvData] in Hd'.
    now injection Hd' as <-.
  - rewrite Hm in Hd'. discriminate.
Qed.

Lemma separate_empty (st : App.State) :
  CsvManager.csvData (App.manager st) = None -> Separate st.
Proof.
  intros H. constructor; unfold App.working, App.original,
    CsvManager.working, CsvManager.original; rewrite H;
    try constructor. intros row snap [].
Qed.

Lemma Forall_below_weaken (n m : nat) (l : list RowObject) :
  n <= m -> Forall (fun row => oid row < n) l ->
  Forall (fun row => oid row < m) l.
Proof.
  intros Hle H. eapply Forall_impl; [|exact H]. simpl. intros; lia.
Qed.

Lemma oid_in_copy next (rows : list RowObject) (row : RowObject) :
  In row (CsvUpload.jsonCopy next rows) ->
  next <= oid row < next + length rows.
Proof.
  intros Hin. apply (in_map oid) in Hin.
  rewrite LoadFacts.oid_jsonCopy in Hin. apply in_seq in Hin. lia.
Qed.

Lemma step_separate (st : App.State) (ev : App.Event) :
  Separate st -> Separate (App.step st ev).
Proof.
  intros [Hw Ho Hdis].
  destruct (SessionFacts.step_effect st ev)
    as [Hm Hn | chunks _ -> | d i f value Hd -> | d Hd Hm Hn | Hm Hn].
  - constructor; unfold App.working, App.original in *; rewrite ?Hm, ?Hn;
      assumption.
  - unfold App.stepUpload.
    destruct (LoadFacts.load_cases (App.nextOid st) chunks)
      as [[_ ->] | [[_ [_ ->]] | [_ [_ ->]]]];
      try (apply separate_empty; reflexivity).
    destruct (LoadFacts.parseChunks_gathered (App.nextOid st) chunks)
      as [_ _ Hfresh].
    constructor; unfold App.working, App.original, CsvManager.working,
      CsvManager.original, CsvManager.handleDataLoaded;
      cbn [App.manager App.nextOid CsvManager.csvData rows originalRows].
    + eapply Forall_below_weaken; [|exact Hfresh]. lia.
    + apply InvariantFacts.fresh_of_copy.
    + intros row snap Hrow Hsnap. apply oid_in_copy in Hsnap.
      pose proof (proj1 (Forall_forall _ _) Hfresh row Hrow) as Hlt.
      simpl in Hlt. lia.
  - unfold App.working, App.original, CsvManager.working,
      CsvManager.original in *.
    rewrite Hd in *. unfold App.commitEdit.
    destruct (EditFacts.handleEdit_cases (rows d) (App.table st)
                (App.nextOid st) i f value)
      as [[_ ->] | [k [old [_ [_ ->]]]]].
    + constructor; unfold App.working, App.original, CsvManager.working,
        CsvManager.original; simpl; rewrite Hd; assumption.
    + constructor; unfold App.working, App.original, CsvManager.working,
        CsvManager.original, CsvManager.handleDataChange; simpl;
        rewrite Hd; simpl.
      * apply EditFacts.Forall_update; simpl; [|lia].
        eapply Forall_below_weaken; [|exact Hw]. lia.
      * eapply Forall_below_weaken; [|exact Ho]. lia.
      * intros row snap Hrow Hsnap.
        destruct (EditFacts.in_update _ _ _ _ Hrow) as [-> | Hold].
        -- pose proof (proj1 (Forall_forall _ _) Ho snap Hsnap) as Hlt.
           simpl in *. lia.
        -- now apply Hdis.
  - unfold App.working, App.original, CsvManager.working,
      CsvManager.original in *.
    rewrite Hd in *.
    constructor; unfold App.working, App.original, CsvManager.working,
      CsvManager.original; rewrite Hm, ?Hn;
      unfold CsvManager.handleReset; rewrite Hd;
      cbn [CsvManager.csvData rows originalRows].
    + apply InvariantFacts.fresh_of_copy.
    + eapply Forall_below_weaken; [|exact Ho]. lia.
    + intros row snap Hrow Hsnap. apply oid_in_copy in Hrow.
      pose proof (proj1 (Forall_forall _ _) Ho snap Hsnap) as Hlt.
      simpl in Hlt. lia.
  - apply separate_empty. now rewrite Hm.
Qed.

Lemma reachable_separate (st : App.State) : App.reachable st -> Separate st.
Proof.
  apply SessionFacts.reachable_ind.
  - apply separate_empty. reflexivity.
  - intros s ev. apply step_separate.
Qed.

End WithHost.
End SessionMoreFacts.

(** X6.  In every state a session reaches the current page is at least
    1, so the rows on screen are at most 50 and are the rows from
    index [(currentPage - 1) * 50] of the filtered and sorted view. *)
Theorem current_page_is_at_least_one
        {host : Js.Host} (st : App.State) (Hreach : App.reachable st) :
  (1 <= DataTable.currentPage (App.table st))%Z /\
  length (DataTable.displayedRows (App.working st) (App.table st)) <= 50 /\
  DataTable.displayedRows (App.working st) (App.table st) =
  firstn 50
         (skipn (50 * Z.to_nat (DataTable.currentPage (App.table st) - 1))
                (DataTable.filteredAndSortedData
                   (App.working st) (DataTable.searchTerm (App.table st))
                   (DataTable.sortConfig (App.table st)))).
Proof.
  pose proof (SessionMoreFacts.reachable_page_from_one st Hreach) as Hpage.
  split; [assumption|]. unfold DataTable.displayedRows.
  rewrite PageFacts.paginatedData_run by assumption.
  split; [|reflexivity]. rewrite length_firstn. lia.
Qed.

(** X7.  While a table is shown, no event changes the original snapshot
    or the header list: after any event that leaves a table on screen,
    the snapshot holds the same row objects and the headers are the same
    as before. *)
Theorem snapshot_and_headers_are_never_written
        {host : Js.Host} (st : App.State) (ev : App.Event)
        (d d' : Types.CsvData)
        (Hbefore : CsvManager.csvData (App.manager st) = Some d)
        (Hafter : CsvManager.csvData (App.manager (App.step st ev)) = Some d') :
  Types.originalRows d' = Types.originalRows d /\
  Types.headers d' = Types.headers d.
Proof.
  exact (SessionMoreFacts.step_keeps_snapshot st ev d d' Hbefore Hafter).
Qed.

(** X8.  A file that loads opens the table on page 1 with an empty
    search and no sort, clears the error message, marks no cell as
    modified, shows the first 50 rows of the table in file order, and
    has at least one page. *)
Theorem loaded_table_starts_clean
        {host : Js.Host} (st : App.State)
        (chunks : list CsvUpload.ChunkResults) (d : Types.CsvData)
        (Hscreen : CsvManager.csvData (App.manager st) = None)
        (Hloaded : CsvManager.csvData
                     (App.manager (App.step st (App.FileParsed chunks))) =
                   Some d) :
  let st' := App.step st (App.FileParsed chunks) in
  App.table st' = DataTable.initialState /\
  CsvManager.error (App.manager st') = None /\
  DataTable.modifiedCells (Types.rows d) (Types.originalRows d) = [] /\
  DataTable.displayedRows (Types.rows d) (App.table st') =
  firstn 50 (Types.rows d) /\
  (1 <= DataTable.totalPages (length (Types.rows d)))%Z.
Proof.
  intros st'. unfold st', App.step in *. rewrite Hscreen in *.
  unfold App.stepUpload in *.
  destruct (LoadFacts.load_cases (App.nextOid st) chunks)
    as [[_ Hl] | [[_ [_ Hl]] | [_ [Hrows Hl]]]];
    rewrite Hl in *; try discriminate.
  simpl in Hloaded. injection Hloaded as <-.
  cbn [App.table App.manager CsvManager.error CsvManager.handleDataLoaded
       CsvManager.csvData Types.rows Types.originalRows].
  destruct (LoadFacts.parseChunks_gathered (App.nextOid st) chunks)
    as [Hvalid _ _].
  set (rows := CsvUpload.allRows (CsvUpload.parseChunks (App.nextOid st) chunks))
    in *.
  repeat split.
  - apply StoreFacts.modifiedCells_same_props.
    symmetry. apply StoreFacts.props_jsonCopy.
  - unfold DataTable.displayedRows, DataTable.filteredAndSortedData. simpl.
    rewrite ViewFacts.filterRows_empty_term.
    + now rewrite PageFacts.paginatedData_run by lia.
    + eapply Forall_impl; [|exact Hvalid].
      intros row. apply LoadFacts.isValidRow_has_column.
  - pose proof (ViewFacts.totalPages_bounds (length rows)) as Hb.
    destruct rows; [congruence|]. simpl length in Hb |- *. lia.
Qed.

(** X9.  In every state a session reaches, the working table and the
    original snapshot share no row object: the snapshot is a copy of its
    own, and an edit or a reset puts new objects into the working table
    only. *)
Theorem working_table_and_snapshot_share_no_row
        {host : Js.Host} (st : App.State) (Hreach : App.reachable st) :
  forall row snap,
    In row (App.working st) -> In snap (App.original st) ->
    Types.sameObject row snap = false.
Proof.
  intros row snap Hrow Hsnap.
  destruct (SessionMoreFacts.reachable_separate st Hreach) as [_ _ Hdis].
  unfold Types.sameObject. apply Nat.eqb_neq. now apply Hdis.
Qed.

(** ** Edits and the diff *)

Module EditDiffFacts.
Import Js Types JsFacts Notions.

Lemma in_keys_iff (o : Props) (k : string) :
  In k (keys o) <-> getProp o k <> None.
Proof.
  induction o as [|[k' v] o IH]; simpl.
  - split; [intros [] | congruence].
  - destruct (String.eqb_spec k' k) as [-> | Hne].
    + split; [discriminate | auto].
    + rewrite <- IH. split; [intros [H | H]; [contradiction | exact H] | auto].
Qed.

Lemma keys_replaceProp (o : Props) (k v : string) :
  keys (replaceProp o k v) = keys o.
Proof.
  induction o as [|[k' v'] o IH]; simpl; [reflexivity|].
  destruct (String.eqb k' k); simpl; [reflexivity | now rewrite IH].
Qed.

(** Writing a column the row has keeps the row's columns in place. *)
Lemma keys_setProp_present (o : Props) (k v : string) :
  In k (keys o) -> keys (setProp o k v) = keys o.
Proof.
  intros Hin. apply in_keys_iff in Hin. unfold setProp.
  destruct (getProp o k); [apply keys_replaceProp | congruence].
Qed.

Lemma in_keys_setProp (o : Props) (k v g : string) :
  In g (keys (setProp o k v)) <-> g = k \/ In g (keys o).
Proof.
  rewrite !in_keys_iff.
  destruct (String.eqb_spec g k) as [-> | Hne].
  - rewrite getProp_setProp_same. split; [auto | discriminate].
  - rewrite getProp_setProp_other by assumption.
    split; [auto | intros [H | H]; [contradiction | exact H]].
Qed.

Section WithHost.
Context {host : Host}.

(** Reading a cell of the object a spread has built. *)
Lemma cellText_setProp_same (fresh : nat) (o : Props) (f value : string) :
  DataTable.cellText {| oid := fresh; props := setProp o f value |} f = value.
Proof.
  unfold DataTable.cellText, get. simpl.
  now rewrite getProp_setProp_same.
Qed.

Lemma cellText_setProp_other (fresh : nat) (old : RowObject)
      (f value g : string) :
  g <> f ->
  DataTable.cellText {| oid := fresh; props := setProp (props old) f value |} g =
  DataTable.cellText old g.
Proof.
  intros Hne. unfold DataTable.cellText, get. simpl.
  now rewrite getProp_setProp_other by assumption.
Qed.

Lemma modified_iff (data originalData : list RowObject) (r : nat) (f : string) :
  Modified data originalData r f <->
  exists row originalRow,
    nth_error data r = Some row /\
    nth_error originalData r = Some originalRow /\
    In f (keys (props row)) /\
    DataTable.cellText row f <> DataTable.cellText originalRow f.
Proof.
  unfold Modified. split.
  - intros [cell [Hin [<- <-]]].
    apply DiffFacts.in_modifiedCells in Hin
      as [row [orig [H1 [H2 [H3 [H4 _]]]]]].
    exists row, orig. auto.
  - intros [row [orig [H1 [H2 [H3 H4]]]]].
    exists (DataTable.cellFor r row orig f). simpl. split; [|auto].
    apply DiffFacts.in_modifiedCells. exists row, orig. simpl. auto.
Qed.

(** The diff after one cell of row [k] was written. *)
Lemma modified_after_write (data originalData : list RowObject)
      (k fresh : nat) (old : RowObject) (f value : string) (r : nat)
      (g : string) :
  nth_error data k = Some old ->
  let newData :=
    update data k {| oid := fresh; props := setProp (props old) f value |} in
  Modified newData originalData r g <->
  if (r =? k)%nat && String.eqb g f
  then exists originalRow,
         nth_error originalData k = Some originalRow /\
         value <> DataTable.cellText originalRow f
  else Modified data originalData r g.
Proof.
  intros Hold newData.
  assert (Hlt : k < length data) by (apply nth_error_Some; congruence).
  destruct (Nat.eqb_spec r k) as [-> | Hr]; simpl.
  - destruct (String.eqb_spec g f) as [-> | Hg];
      rewrite !modified_iff; unfold newData;
      rewrite nth_error_update_same by assumption.
    + split.
      * intros [row [o [Hrow [Ho [_ Hne]]]]]. injection Hrow as <-.
        exists o. split; [assumption|].
        now rewrite cellText_setProp_same in Hne.
      * intros [o [Ho Hne]]. eexists _, o.
        split; [reflexivity|]. split; [assumption|]. split.
        -- simpl. apply in_keys_setProp. now left.
        -- now rewrite cellText_setProp_same.
    + split.
      * intros [row [o [Hrow [Ho [Hin Hne]]]]]. injection Hrow as <-.
        exists old, o. simpl in Hin.
        apply in_keys_setProp in Hin as [Hin | Hin]; [contradiction|].
        rewrite cellText_setProp_other in Hne by assumption. auto.
      * intros [row [o [Hrow [Ho [Hin Hne]]]]].
        rewrite Hold in Hrow. injection Hrow as <-.
        eexists _, o. split; [reflexivity|]. split; [assumption|]. split.
        -- simpl. apply in_keys_setProp. now right.
        -- now rewrite cellText_setProp_other by assumption.
  - rewrite !modified_iff. unfold newData.
    now rewrite nth_error_update_other by assumption.
Qed.

(** Where a read does not reach [Object.prototype]: the row owns the
    field, or no member has that name. *)
Lemma cellText_own (row : RowObject) (f : string) :
  In f (keys (props row)) -> DataTable.cellText row f = Spec.coerced row f.
Proof.
  intros Hin. apply in_keys_iff in Hin.
  unfold DataTable.cellText, Spec.coerced, get.
  destruct (getProp (props row) f); [reflexivity | congruence].
Qed.

Lemma cellText_not_inherited (row : RowObject) (f : string) :
  isInherited f = false -> DataTable.cellText row f = Spec.coerced row f.
Proof.
  intros Hf. unfold DataTable.cellText, Spec.coerced, get. rewrite Hf.
  destruct (getProp (props row) f); reflexivity.
Qed.

End WithHost.

End EditDiffFacts.

(** X10.  After [handleEdit] has written value [value] to field [f] of
    the row it resolved, at index [k], the diff against the snapshot
    lists the cell (k, f) exactly when the snapshot has a row [k] whose
    text at [f] differs from [value], and lists every other cell
    exactly when it did before: writing a cell back to its original text
    takes it off the list of modified cells, and no other cell is
    touched. *)
Theorem edit_changes_the_diff_at_one_cell
        {host : Js.Host} (data originalData : list Types.RowObject)
        (st st' : DataTable.State) (fresh rowIndex : nat) (f value : string)
        (newData : list Types.RowObject)
        (Hedit : DataTable.handleEdit data st fresh rowIndex f value =
                 (Some newData, st')) :
  exists k,
    DataTable.actualIndexOf data st rowIndex = Z.of_nat k /\
    forall r g,
      Notions.Modified newData originalData r g <->
      if (r =? k)%nat && String.eqb g f
      then exists originalRow,
             nth_error originalData k = Some originalRow /\
             value <> DataTable.cellText originalRow f
      else Notions.Modified data originalData r g.
Proof.
  destruct (EditFacts.handleEdit_cases data st fresh rowIndex f value)
    as [[_ Hr] | [k [old [Hk [Hold Hr]]]]]; rewrite Hr in Hedit.
  - discriminate.
  - injection Hedit as <- _. exists k. split; [assumption|].
    intros r g. now apply EditDiffFacts.modified_after_write.
Qed.

(** X22.  On a working table none of whose columns has the name of a
    member of [Object.prototype], the diff lists the cell at row index
    [r] and field [f] exactly when [r] is an index of both tables, [f]
    is a column of working row [r], and the working and the original
    value differ as strings, an absent value counting as the empty
    string. *)
Theorem diff_of_ordinary_columns_counts_absent_as_empty
        {host : Js.Host} (data originalData : list Types.RowObject)
        (Hordinary : forall row f,
            In row data -> In f (Js.keys (Types.props row)) ->
            Js.isInherited f = false)
        (r : nat) (f : string) :
  Notions.Modified data originalData r f <->
  exists row originalRow,
    nth_error data r = Some row /\
    nth_error originalData r = Some originalRow /\
    In f (Js.keys (Types.props row)) /\
    Spec.coerced row f <> Spec.coerced originalRow f.
Proof.
  rewrite EditDiffFacts.modified_iff. split.
  - intros [row [orig [Hrow [Horig [Hf Hne]]]]]. exists row, orig.
    repeat split; try assumption.
    rewrite <- (EditDiffFacts.cellText_own row f Hf).
    rewrite <- (EditDiffFacts.cellText_not_inherited orig f); [assumption|].
    apply (Hordinary row f); [|assumption].
    eapply nth_error_In; eassumption.
  - intros [row [orig [Hrow [Horig [Hf Hne]]]]]. exists row, orig.
    repeat split; try assumption.
    rewrite (EditDiffFacts.cellText_own row f Hf).
    rewrite (EditDiffFacts.cellText_not_inherited orig f); [assumption|].
    apply (Hordinary row f); [|assumption].
    eapply nth_error_In; eassumption.
Qed.

(** X11.  An edit of a column that is among the table's headers leaves
    the headers as they were, names and order: the header row is read
    off the first row, and writing a field the first row has keeps its
    fields in place. *)
Theorem edit_keeps_the_headers
        {host : Js.Host} (data : list Types.RowObject)
        (st st' : DataTable.State) (fresh rowIndex : nat) (f value : string)
        (newData : list Types.RowObject)
        (Hheader : In f (DataTable.headersOf data))
        (Hedit : DataTable.handleEdit data st fresh rowIndex f value =
                 (Some newData, st')) :
  DataTable.headersOf newData = DataTable.headersOf data.
Proof.
  destruct (EditFacts.handleEdit_cases data st fresh rowIndex f value)
    as [[_ Hr] | [k [old [_ [Hold Hr]]]]]; rewrite Hr in Hedit.
  - discriminate.
  - injection Hedit as <- _.
    destruct data as [|first data]; [destruct k; discriminate|].
    destruct k as [|k]; simpl in *.
    + injection Hold as <-. now apply EditDiffFacts.keys_setProp_present.
    + reflexivity.
Qed.

(** X12.  On the first page of a table of distinct row objects, the
    mark [isCellModified] of a cell on screen is the diff's entry for
    that row of the working table: the row shown at index [i] is
    resolved to its index [k] in the working table, and the cell is
    marked exactly when the diff lists (k, f). *)
Theorem first_page_marks_follow_the_diff
        {host : Js.Host} (data originalData : list Types.RowObject)
        (st : DataTable.State) (i : nat) (f : string)
        (shown : Types.RowObject)
        (Hdistinct : NoDup (map Types.oid data))
        (Hpage : DataTable.currentPage st = 1%Z)
        (Hshown : nth_error (DataTable.displayedRows data st) i = Some shown) :
  exists k,
    nth_error data k = Some shown /\
    (DataTable.isCellModified data originalData st i f = true <->
     Notions.Modified data originalData k f).
Proof.
  destruct (MappingFacts.first_page_edit_resolves_displayed_row
              data st i shown Hdistinct Hpage Hshown)
    as [_ [k [Hk Hrow]]].
  exists k. split; [assumption|].
  unfold DataTable.isCellModified, Notions.Modified.
  rewrite Hk, existsb_exists. split.
  - intros [cell [Hin Hb]]. apply andb_true_iff in Hb as [Hr Hf].
    apply Z.eqb_eq in Hr. apply String.eqb_eq in Hf.
    exists cell. repeat split; [assumption | lia | assumption].
  - intros [cell [Hin [Hr Hf]]]. exists cell. split; [assumption|].
    apply andb_true_iff. split.
    + apply Z.eqb_eq. lia.
    + now apply String.eqb_eq.
Qed.

(** ** What a load keeps *)

Module LoadContentFacts.
Import Js Types JsFacts Notions.

Lemma isValidRow_props (row : RowObject) :
  CsvUpload.isValidRow row = recordIsValid (props row).
Proof. reflexivity. Qed.


Lemma trimStart_empty_iff (s : string) :
  trimStart s = "" <-> hasInk s = false.
Proof.
  induction s as [|c s IH]; simpl; [tauto|].
  destruct (isWhiteSpace c); simpl; [assumption|].
  split; discriminate.
Qed.

Lemma hasInk_trimStart (s : string) : hasInk (trimStart s) = hasInk s.
Proof.
  induction s as [|c s IH]; simpl; [reflexivity|].
  destruct (isWhiteSpace c) eqn:E; simpl; [assumption|].
  now rewrite E.
Qed.

Lemma hasInk_rev_string (s acc : string) :
  hasInk (rev_string s acc) = hasInk s || hasInk acc.
Proof.
  revert acc; induction s as [|c s IH]; intros acc; simpl; [reflexivity|].
  rewrite IH. simpl. destruct (isWhiteSpace c), (hasInk s), (hasInk acc);
    reflexivity.
Qed.

Lemma rev_string_empty_iff (s : string) :
  rev_string s "" = "" <-> s = "".
Proof.
  destruct s as [|c s]; simpl; [tauto|].
  split; [|discriminate]. intros H.
  assert (Hlen : String.length (rev_string s (String c "")) = 0)
    by now rewrite H.
  assert (Hge : forall t acc, String.length acc <= String.length (rev_string t acc)).
  { induction t as [|a t IHt]; intros acc; simpl; [lia|].
    specialize (IHt (String a acc)). simpl in IHt. lia. }
  specialize (Hge s (String c "")). simpl in Hge. lia.
Qed.

(** Trimming leaves nothing exactly when there was only white space. *)
Lemma trim_empty_iff (s : string) : trim s = "" <-> hasInk s = false.
Proof.
  unfold trim, trimEnd.
  rewrite rev_string_empty_iff, trimStart_empty_iff, hasInk_rev_string.
  simpl. now rewrite orb_false_r, hasInk_trimStart.
Qed.

Lemma value_counts_iff (value : string) :
  negb (String.eqb value "") && negb (String.eqb (trim value) "") = true <->
  hasInk value = true.
Proof.
  rewrite andb_true_iff, !negb_true_iff, !String.eqb_neq.
  pose proof (trim_empty_iff value) as Htrim.
  destruct (hasInk value) eqn:E.
  - split; [reflexivity|]. intros _. split.
    + intros ->. discriminate.
    + intros H. apply Htrim in H. discriminate.
  - split; [|discriminate]. intros [_ H]. exfalso. apply H. now apply Htrim.
Qed.

Section WithHost.
Context {host : Host}.



End WithHost.
End LoadContentFacts.


(** X14.  The row filter of the upload keeps a row exactly when one of
    its cells has a character that is not white space: empty cells and
    cells of blanks, tabs or line breaks do not count. *)
Theorem row_is_valid_iff_a_cell_has_ink (row : Types.RowObject) :
  CsvUpload.isValidRow row = true <->
  exists value, In value (Js.values (Types.props row)) /\
                Notions.hasInk value = true.
Proof.
  unfold CsvUpload.isValidRow. rewrite existsb_exists.
  split; intros [value [Hin H]]; exists value; (split; [assumption|]);
    now apply LoadContentFacts.value_counts_iff.
Qed.

(** ** Searching *)

Module SearchFacts.
Import Js Types JsFacts.

Lemma append_assoc (a b c : string) :
  ((a ++ b) ++ c)%string = (a ++ b ++ c)%string.
Proof.
  induction a as [|x a IH]; simpl; [reflexivity | now rewrite IH].
Qed.

Lemma Substring_trans (a b c : string) :
  Substring a b -> Substring b c -> Substring a c.
Proof.
  intros [p [q ->]] [p' [q' ->]].
  exists (p' ++ p)%string, (q ++ q')%string.
  now rewrite !append_assoc.
Qed.

Section WithHost.
Context {host : Host}.

Lemma rowMatches_narrower (term term' : string) (row : RowObject) :
  Substring (toLowerCase term) (toLowerCase term') ->
  DataTable.rowMatches term' row = true ->
  DataTable.rowMatches term row = true.
Proof.
  intros Hsub H. apply ViewFacts.rowMatches_iff in H as [value [Hin H]].
  apply ViewFacts.rowMatches_iff. exists value. split; [assumption|].
  now apply (Substring_trans _ (toLowerCase term')).
Qed.

End WithHost.
End SearchFacts.

(** X15.  A longer search term only narrows the result: when the
    lower-cased term occurs in the lower-cased longer term, every row
    found for the longer term is found for the shorter one, and
    filtering the shorter term's result by the longer term gives the
    longer term's result. *)
Theorem longer_search_term_narrows
        {host : Js.Host} (data : list Types.RowObject) (term term' : string)
        (Hsub : Js.Substring (Js.toLowerCase term) (Js.toLowerCase term')) :
  (forall row, In row (DataTable.filterRows term' data) ->
               In row (DataTable.filterRows term data)) /\
  DataTable.filterRows term' (DataTable.filterRows term data) =
  DataTable.filterRows term' data.
Proof.
  unfold DataTable.filterRows. split.
  - intros row Hin. apply filter_In in Hin as [Hin Hm]. apply filter_In.
    split; [assumption|]. now apply (SearchFacts.rowMatches_narrower term term').
  - induction data as [|row data IH]; simpl; [reflexivity|].
    destruct (DataTable.rowMatches term row) eqn:E; simpl.
    + now rewrite IH.
    + destruct (DataTable.rowMatches term' row) eqn:E'; [|assumption].
      rewrite (SearchFacts.rowMatches_narrower term term' row Hsub E') in E.
      discriminate.
Qed.

(** ** The persistence hook *)

Module PersistenceFacts.
Import Persistence.

(** The expiry test, in milliseconds. *)
Lemma expired_iff (now : Z) (stored : StoredCsvData) :
  Qle_bool (ageInMinutes now stored) (inject_Z EXPIRY_MINUTES) =
  (now - timestamp stored <=? 600000)%Z.
Proof.
  unfold Qle_bool, ageInMinutes, Qdiv, Qmult, Qinv, inject_Z, EXPIRY_MINUTES.
  simpl. rewrite !Z.mul_1_r. reflexivity.
Qed.

End PersistenceFacts.

(** X16.  Saving and loading on a database that answers.  A table saved
    while online is loaded back unchanged at any later time; a table
    saved while offline is loaded back up to 10 minutes (600000 ms)
    after the save, and after that the load gives nothing and removes
    the entry. *)
Theorem saved_table_loads_until_it_expires
        (isOnline : bool) (now later : Z) (db : Persistence.Store)
        (csvData : Types.CsvData) :
  let saved := Persistence.saveData Persistence.healthy isOnline now db csvData in
  Persistence.loadData Persistence.healthy later saved =
  if isOnline || (later - now <=? 600000)%Z
  then (Some csvData, saved)
  else (None, None).
Proof.
  unfold Persistence.saveData, Persistence.loadData. simpl.
  rewrite PersistenceFacts.expired_iff. simpl.
  destruct isOnline, (later - now <=? 600000)%Z; reflexivity.
Qed.

(** X17.  Whatever requests the database rejects, [loadData] only gives
    what the store holds: when it gives a table, the store holds that
    table, unexpired, and is left as it was; when it gives nothing, the
    store is left as it was or emptied, and on a database that answers
    it is empty afterwards, so that every later load and
    [hasStoredData] give nothing as well.  [clearData] on such a
    database leaves nothing to load. *)
Theorem load_gives_only_what_is_stored
        (faults : Persistence.Faults) (now later : Z) (db : Persistence.Store) :
  match Persistence.loadData faults now db with
  | (Some d, db') =>
      db' = db /\
      exists stored,
        db = Some stored /\ Persistence.data stored = d /\
        (Persistence.online stored = true \/
         (now - Persistence.timestamp stored <= 600000)%Z)
  | (None, db') => db' = db \/ db' = None
  end /\
  match Persistence.loadData Persistence.healthy now db with
  | (Some _, _) => True
  | (None, db') =>
      db' = None /\
      Persistence.loadData faults later db' = (None, None) /\
      Persistence.hasStoredData faults later db' = (false, None)
  end /\
  Persistence.loadData
    faults later (Persistence.clearData Persistence.healthy db) = (None, None).
Proof.
  unfold Persistence.hasStoredData, Persistence.clearData,
    Persistence.loadData.
  simpl. split; [|split].
  - destruct (Persistence.getRejects faults); [now left|].
    destruct db as [stored|]; [|now left].
    rewrite PersistenceFacts.expired_iff.
    destruct (Persistence.online stored) eqn:Eo; simpl.
    + split; [reflexivity|]. exists stored. auto.
    + destruct (Z.leb_spec (now - Persistence.timestamp stored) 600000); simpl.
      * split; [reflexivity|]. exists stored. auto.
      * destruct (Persistence.deleteRejects faults); auto.
  - destruct db as [stored|].
    + destruct (negb _ && negb _); [|exact I].
      destruct (Persistence.getRejects faults); repeat split.
    + destruct (Persistence.getRejects faults); repeat split.
  - destruct (Persistence.getRejects faults); reflexivity.
Qed.

(** ** The progress bar *)

Module ProgressFacts.
Import Js ProgressBar.

Lemma hundred : ofZ 100 = S754_finite false 7036874417766400 (-46).
Proof. reflexivity. Qed.

Lemma mul_by_finite_not_nan (x : Number) (s : bool) (m : positive) (e : Z) :
  isNaN x = false -> isNaN (mul x (S754_finite s m e)) = false.
Proof.
  destruct x as [sx|sx| |sx mx ex]; intros H; try reflexivity;
    [discriminate|].
  unfold mul, SFmul. apply NumberFacts.binary_round_aux_not_nan. lia.
Qed.

Lemma div_by_finite_not_nan (x : Number) (s : bool) (m : positive) (e : Z) :
  isFinite x = true -> isNaN (div x (S754_finite s m e)) = false.
Proof.
  destruct x as [sx|sx| |sx mx ex]; intros H; try reflexivity;
    try discriminate.
  unfold div, SFdiv, SFdiv_core_binary.
  set (m' := match _ with Z0 => Z.pos mx | Zpos _ => _ | Zneg _ => _ end).
  assert (Hm' : (0 <= m')%Z).
  { unfold m'. destruct (_ - _ - _)%Z; try lia. apply Z.shiftl_nonneg. lia. }
  pose proof (Z_div_mod m' (Z.pos m) ltac:(lia)) as Hdiv.
  destruct (Z.div_eucl m' (Z.pos m)) as [q r].
  apply NumberFacts.binary_round_aux_not_nan. nia.
Qed.

(** Clamping a number to 0 .. 100. *)
Lemma clamp_bounds (x : Number) :
  isNaN x = false ->
  let p := mathMin (mathMax x (ofZ 0)) (ofZ 100) in
  isNaN p = false /\ SFleb (ofZ 0) p = true /\ SFleb p (ofZ 100) = true.
Proof.
  rewrite hundred. change (ofZ 0) with (S754_zero false).
  destruct x as [[|]|[|]| |[|] m e]; intros H; try discriminate;
    try (repeat split; reflexivity).
  cbn [mathMax SFcompare].
  unfold mathMin, SFleb.
  destruct (SFcompare (S754_finite false m e)
                      (S754_finite false 7036874417766400 (-46)))
    as [[| |]|] eqn:E.
  - rewrite E. repeat split.
  - rewrite E. repeat split.
  - repeat split.
  - unfold SFcompare in E. destruct (e ?= -46)%Z; discriminate.
Qed.

End ProgressFacts.

(** X18.  For a finite value and a finite maximum other than zero, the
    percentage of the progress bar is a number from 0 to 100, whatever
    the sign or size of the value; the width of the bar never leaves
    its track. *)
Theorem percentage_is_between_0_and_100
        (value max : Js.Number)
        (Hvalue : Js.isFinite value = true)
        (Hmax : Js.isFinite max = true)
        (Hnonzero : SFeqb max (Js.ofZ 0) = false) :
  Js.isNaN (ProgressBar.percentage value max) = false /\
  SFleb (Js.ofZ 0) (ProgressBar.percentage value max) = true /\
  SFleb (ProgressBar.percentage value max) (Js.ofZ 100) = true.
Proof.
  unfold ProgressBar.percentage. apply ProgressFacts.clamp_bounds.
  rewrite ProgressFacts.hundred.
  apply ProgressFacts.mul_by_finite_not_nan.
  destruct max as [s|s| |s m e]; try discriminate.
  now apply ProgressFacts.div_by_finite_not_nan.
Qed.

(** ** The dropped file *)

Module DropFacts.
Import Js Dropzone.

Lemma endsWith_iff (s t : string) :
  endsWith s t = true <-> exists stem, s = (stem ++ t)%string.
Proof.
  induction s as [|c s IH]; cbn [endsWith]; rewrite orb_true_iff, String.eqb_eq.
  - split.
    + intros [-> | H]; [now exists "" | discriminate].
    + intros [stem H]. left. destruct stem; [assumption | discriminate].
  - rewrite IH. split.
    + intros [<- | [stem ->]]; [now exists "" | now exists (String c stem)].
    + intros [[|c' stem] H]; [now left|].
      right. simpl in H. injection H as _ ->. now exists stem.
Qed.

End DropFacts.

(** X19.  What [onDrop] does with the files dropped.  Only the first
    file counts.  It is handed to [processFile] exactly when its type is
    [text/csv] or its name ends in [.csv] (lower case), and it has at
    most 100 * 1024 * 1024 bytes; a file of another type and name is
    refused as not CSV whatever its size, and a CSV file above the limit
    is refused as too large.  With no file nothing happens. *)
Theorem dropped_file_is_checked_before_parsing
        (acceptedFiles : list Dropzone.File) :
  match Dropzone.onDrop acceptedFiles with
  | Dropzone.Nothing => acceptedFiles = []
  | Dropzone.Processed file =>
      hd_error acceptedFiles = Some file /\
      (Dropzone.type file = "text/csv" \/
       exists stem, Dropzone.name file = (stem ++ ".csv")%string) /\
      (Dropzone.size file <= 104857600)%Z
  | Dropzone.Refused msg =>
      exists file,
        hd_error acceptedFiles = Some file /\
        ((msg = "Please upload a valid CSV file (.csv only)." /\
          Dropzone.type file <> "text/csv" /\
          forall stem, Dropzone.name file <> (stem ++ ".csv")%string) \/
         (msg = "File size too large. Please upload under 100MB." /\
          (Dropzone.type file = "text/csv" \/
           exists stem, Dropzone.name file = (stem ++ ".csv")%string) /\
          (104857600 < Dropzone.size file)%Z))
  end.
Proof.
  destruct acceptedFiles as [|file rest]; [reflexivity|].
  unfold Dropzone.onDrop.
  assert (Hkind : negb (String.eqb (Dropzone.type file) "text/csv") &&
                  negb (Dropzone.endsWith (Dropzone.name file) ".csv") = false ->
                  Dropzone.type file = "text/csv" \/
                  exists stem, Dropzone.name file = (stem ++ ".csv")%string).
  { intros H. apply andb_false_iff in H as [H | H];
      apply negb_false_iff in H.
    - left. now apply String.eqb_eq.
    - right. now apply DropFacts.endsWith_iff. }
  destruct (negb _ && negb _) eqn:E.
  - exists file. split; [reflexivity|]. left.
    apply andb_true_iff in E as [Et En].
    apply negb_true_iff in Et, En. apply String.eqb_neq in Et.
    repeat split; [assumption|].
    intros stem Hname.
    assert (Hends : Dropzone.endsWith (Dropzone.name file) ".csv" = true)
      by (apply DropFacts.endsWith_iff; now exists stem).
    congruence.
  - change (100 * 1024 * 1024)%Z with 104857600%Z.
    destruct (Z.ltb_spec 104857600 (Dropzone.size file)).
    + exists file. split; [reflexivity|]. right. auto.
    + simpl. auto.
Qed.

(** ** The further theorems at sample inputs *)

Module AsciiHostFacts.

Lemma compareCodeUnits_refl (s : string) : AsciiHost.compareCodeUnits s s = 0%Z.
Proof.
  unfold AsciiHost.compareCodeUnits.
  assert (H : String.compare s s = Eq).
  { induction s as [|c s IH]; simpl; [reflexivity|].
    unfold Ascii.compare. now rewrite N.compare_refl. }
  now rewrite H.
Qed.

End AsciiHostFacts.

Lemma sorting_a_constant_column_keeps_the_order_witness :
  DataTable.filteredAndSortedData
    (host := AsciiHost.host) MoreSamples.novels ""
    {| Types.sortField := Some "genre"; Types.direction := Types.desc |} =
  DataTable.filterRows (host := AsciiHost.host) "" MoreSamples.novels.
Proof.
  apply (sorting_a_constant_column_keeps_the_order
           (host := AsciiHost.host) MoreSamples.novels "" "genre" Types.desc).
  - exact AsciiHostFacts.compareCodeUnits_refl.
  - intros a b [<- | [<- | []]] [<- | [<- | []]]; reflexivity.
Defined.

Lemma current_page_is_at_least_one_witness :
  App.reachable (host := AsciiHost.host) Samples.editedSession /\
  (1 <= DataTable.currentPage (App.table Samples.editedSession))%Z.
Proof.
  assert (H : App.reachable (host := AsciiHost.host) Samples.editedSession).
  { exists [App.FileParsed [Samples.twoBooks]; App.ClickCell 1 "price";
            App.TypeEdit "12.50"; App.CommitEdit]. reflexivity. }
  split; [exact H|].
  exact (proj1 (current_page_is_at_least_one
                  (host := AsciiHost.host) Samples.editedSession H)).
Defined.

Lemma snapshot_and_headers_are_never_written_witness :
  Types.originalRows (MoreSamples.tableOf Samples.editedSession) =
  Types.originalRows (MoreSamples.tableOf MoreSamples.editingSession) /\
  Types.headers (MoreSamples.tableOf Samples.editedSession) =
  Types.headers (MoreSamples.tableOf MoreSamples.editingSession).
Proof.
  exact (snapshot_and_headers_are_never_written
           (host := AsciiHost.host) MoreSamples.editingSession App.CommitEdit
           (MoreSamples.tableOf MoreSamples.editingSession)
           (MoreSamples.tableOf Samples.editedSession)
           eq_refl eq_refl).
Defined.

Lemma loaded_table_starts_clean_witness :
  DataTable.modifiedCells
    (host := AsciiHost.host)
    (Types.rows (MoreSamples.tableOf MoreSamples.loadedSession))
    (Types.originalRows (MoreSamples.tableOf MoreSamples.loadedSession)) = [].
Proof.
  exact (proj1 (proj2 (proj2 (loaded_table_starts_clean
                                (host := AsciiHost.host) App.initial
                                [Samples.twoBooks]
                                (MoreSamples.tableOf MoreSamples.loadedSession)
                                eq_refl eq_refl)))).
Defined.

Lemma working_table_and_snapshot_share_no_row_witness :
  App.reachable (host := AsciiHost.host) Samples.editedSession /\
  (forall row snap,
      In row (App.working Samples.editedSession) ->
      In snap (App.original Samples.editedSession) ->
      Types.sameObject row snap = false).
Proof.
  assert (H : App.reachable (host := AsciiHost.host) Samples.editedSession).
  { exists [App.FileParsed [Samples.twoBooks]; App.ClickCell 1 "price";
            App.TypeEdit "12.50"; App.CommitEdit]. reflexivity. }
  split; [exact H|].
  exact (working_table_and_snapshot_share_no_row
           (host := AsciiHost.host) Samples.editedSession H).
Defined.

Lemma edit_changes_the_diff_at_one_cell_witness :
  exists k,
    DataTable.actualIndexOf (host := AsciiHost.host)
                            Samples.twoBookRows DataTable.initialState 1 =
    Z.of_nat k /\
    forall r g,
      Notions.Modified (host := AsciiHost.host)
        MoreSamples.twoBookRowsEdited Samples.twoBookRows r g <->
      if (r =? k)%nat && String.eqb g "price"
      then exists originalRow,
             nth_error Samples.twoBookRows k = Some originalRow /\
             "12.50" <> DataTable.cellText (host := AsciiHost.host)
                                           originalRow "price"
      else Notions.Modified (host := AsciiHost.host)
        Samples.twoBookRows Samples.twoBookRows r g.
Proof.
  exact (edit_changes_the_diff_at_one_cell
           (host := AsciiHost.host) Samples.twoBookRows Samples.twoBookRows
           DataTable.initialState
           (DataTable.setEditingCell DataTable.initialState None)
           2 1 "price" "12.50" MoreSamples.twoBookRowsEdited eq_refl).
Defined.

Lemma diff_of_ordinary_columns_counts_absent_as_empty_witness :
  Notions.Modified (host := AsciiHost.host)
                   MoreSamples.twoBookRowsEdited Samples.twoBookRows 1 "price" <->
  exists row originalRow,
    nth_error MoreSamples.twoBookRowsEdited 1 = Some row /\
    nth_error Samples.twoBookRows 1 = Some originalRow /\
    In "price" (Js.keys (Types.props row)) /\
    Spec.coerced row "price" <> Spec.coerced originalRow "price".
Proof.
  apply (diff_of_ordinary_columns_counts_absent_as_empty
           (host := AsciiHost.host) MoreSamples.twoBookRowsEdited
           Samples.twoBookRows).
  intros row f [<- | [<- | []]] Hf; simpl in Hf;
    repeat (destruct Hf as [<- | Hf]; [reflexivity|]); contradiction.
Defined.

Lemma edit_keeps_the_headers_witness :
  DataTable.headersOf MoreSamples.twoBookRowsEdited =
  DataTable.headersOf Samples.twoBookRows.
Proof.
  apply (edit_keeps_the_headers
           (host := AsciiHost.host) Samples.twoBookRows
           DataTable.initialState
           (DataTable.setEditingCell DataTable.initialState None)
           2 1 "price" "12.50" MoreSamples.twoBookRowsEdited).
  - simpl. auto.
  - reflexivity.
Defined.

Lemma first_page_marks_follow_the_diff_witness :
  exists k,
    nth_error MoreSamples.twoBookRowsEdited k =
    Some {| Types.oid := 2;
            Types.props := [("id", "2"); ("title", "B"); ("price", "12.50")] |} /\
    (DataTable.isCellModified (host := AsciiHost.host)
                              MoreSamples.twoBookRowsEdited Samples.twoBookRows
                              DataTable.initialState 1 "price" = true <->
     Notions.Modified (host := AsciiHost.host)
        MoreSamples.twoBookRowsEdited Samples.twoBookRows k "price").
Proof.
  apply (first_page_marks_follow_the_diff
           (host := AsciiHost.host) MoreSamples.twoBookRowsEdited
           Samples.twoBookRows DataTable.initialState 1 "price").
  - repeat constructor; simpl; intuition discriminate.
  - reflexivity.
  - reflexivity.
Defined.

Lemma longer_search_term_narrows_witness :
  Js.Substring (AsciiHost.lower "Nov") (AsciiHost.lower "novel") /\
  DataTable.filterRows (host := AsciiHost.host) "novel"
    (DataTable.filterRows (host := AsciiHost.host) "Nov" MoreSamples.novels) =
  DataTable.filterRows (host := AsciiHost.host) "novel" MoreSamples.novels.
Proof.
  assert (H : Js.Substring (AsciiHost.lower "Nov") (AsciiHost.lower "novel")).
  { exists "", "el". reflexivity. }
  split; [exact H|].
  exact (proj2 (longer_search_term_narrows
                  (host := AsciiHost.host) MoreSamples.novels "Nov" "novel" H)).
Defined.

Lemma percentage_is_between_0_and_100_witness :
  SFleb (Js.ofZ 0) (ProgressBar.percentage (Js.ofZ 250) (Js.ofZ 100)) = true /\
  SFleb (ProgressBar.percentage (Js.ofZ 250) (Js.ofZ 100)) (Js.ofZ 100) = true.
Proof.
  exact (proj2 (percentage_is_between_0_and_100
                  (Js.ofZ 250) (Js.ofZ 100) eq_refl eq_refl eq_refl)).
Defined.

(** ** Committing an edit on the first page *)

(** X20.  On the first page the edit lands on the row on screen.  In a
    state a session reaches, with page 1 current and the editor open on
    cell ([i], [f]) of a displayed row, [f] a header: committing writes
    the typed value to field [f] of that very row of the working table,
    leaves its other fields and every other row as they were, and closes
    the editor. *)
Theorem first_page_commit_edits_the_row_on_screen
        {host : Js.Host} (st : App.State) (d : Types.CsvData)
        (i : nat) (f : string) (shown : Types.RowObject)
        (Hreach : App.reachable st)
        (Htable : CsvManager.csvData (App.manager st) = Some d)
        (Hpage : DataTable.currentPage (App.table st) = 1%Z)
        (Hediting : DataTable.editingCell (App.table st) = Some (i, f))
        (Hshown : nth_error (DataTable.displayedRows (Types.rows d) (App.table st)) i =
                  Some shown)
        (Hheader : In f (DataTable.headersOf (Types.rows d))) :
  let st' := App.step st App.CommitEdit in
  exists k new,
    nth_error (Types.rows d) k = Some shown /\
    nth_error (App.working st') k = Some new /\
    Js.getProp (Types.props new) f = Some (DataTable.editValue (App.table st)) /\
    (forall g, g <> f ->
               Js.getProp (Types.props new) g = Js.getProp (Types.props shown) g) /\
    (forall j, j <> k -> nth_error (App.working st') j = nth_error (Types.rows d) j) /\
    DataTable.editingCell (App.table st') = None.
Proof.
  intros st'.
  destruct (InvariantFacts.reachable_wellFormed st Hreach)
    as [_ _ _ Hdistinct _].
  unfold App.working, CsvManager.working in Hdistinct. rewrite Htable in Hdistinct.
  destruct (MappingFacts.first_page_edit_resolves_displayed_row
              (Types.rows d) (App.table st) i shown Hdistinct Hpage Hshown)
    as [_ [k [Hk Hrow]]].
  assert (Hrendered : App.cellRendered d (App.table st) i f = true).
  { unfold App.cellRendered. apply andb_true_iff. split.
    - apply Nat.ltb_lt. apply nth_error_Some. congruence.
    - apply existsb_exists. exists f. split; [assumption|].
      apply String.eqb_refl. }
  assert (Hst' : st' = App.commitEdit st d i f (DataTable.editValue (App.table st))).
  { unfold st', App.step. rewrite Htable. simpl.
    now rewrite Hediting, Hrendered. }
  rewrite Hst'. unfold App.commitEdit.
  destruct (EditFacts.handleEdit_cases
              (Types.rows d) (App.table st) (App.nextOid st) i f
              (DataTable.editValue (App.table st)))
    as [[Hnone _] | [k' [old [Hk' [Hold ->]]]]]; [lia|].
  assert (k' = k) by lia. subst k'.
  assert (old = shown) by congruence. subst old.
  assert (Hlt : k < length (Types.rows d)).
  { apply nth_error_Some. congruence. }
  unfold App.working, CsvManager.working, CsvManager.handleDataChange.
  simpl. rewrite Htable. simpl.
  eexists k, _. split; [assumption|]. split.
  - now apply JsFacts.nth_error_update_same.
  - simpl. split; [apply JsFacts.getProp_setProp_same|]. split.
    + intros g Hg. now apply JsFacts.getProp_setProp_other.
    + split; [|reflexivity].
      intros j Hj. now apply JsFacts.nth_error_update_other.
Qed.

Lemma first_page_commit_edits_the_row_on_screen_witness :
  exists k new,
    nth_error (Types.rows (MoreSamples.tableOf MoreSamples.editingSession)) k =
    Some {| Types.oid := 1; Types.props := Samples.bookB |} /\
    nth_error (App.working
                 (App.step (host := AsciiHost.host)
                           MoreSamples.editingSession App.CommitEdit)) k =
    Some new /\
    Js.getProp (Types.props new) "price" = Some "12.50".
Proof.
  destruct (first_page_commit_edits_the_row_on_screen
              (host := AsciiHost.host) MoreSamples.editingSession
              (MoreSamples.tableOf MoreSamples.editingSession)
              1 "price" {| Types.oid := 1; Types.props := Samples.bookB |}
              (ex_intro _ [App.FileParsed [Samples.twoBooks];
                           App.ClickCell 1 "price"; App.TypeEdit "12.50"]
                        eq_refl)
              eq_refl eq_refl eq_refl eq_refl
              (or_intror (or_intror (or_introl eq_refl))))
    as [k [new [H1 [H2 [H3 _]]]]].
  exists k, new. auto.
Defined.

(** ** The page buttons *)

(** X21.  When there is more than one page and the current page is one
    of them, the page buttons (at most three) are all page numbers from
    1 to [totalPages], and the current page is among them. *)
Theorem page_buttons_are_pages_and_hold_the_current_one
        {host : Js.Host} (d : Types.CsvData) (t : DataTable.State)
        (Hmany : (1 < DataTable.totalPages (App.filteredLength d t))%Z)
        (Hcurrent : (1 <= DataTable.currentPage t <=
                     DataTable.totalPages (App.filteredLength d t))%Z) :
  length (App.pageButtons d t) <= 3 /\
  (forall page, In page (App.pageButtons d t) ->
                (1 <= page <= DataTable.totalPages (App.filteredLength d t))%Z) /\
  In (DataTable.currentPage t) (App.pageButtons d t).
Proof.
  unfold App.pageButtons.
  set (total := DataTable.totalPages (App.filteredLength d t)) in *.
  destruct (Z.ltb_spec 1 total); [|lia].
  split; [|split].
  - eapply Nat.le_trans; [apply filter_length_le|].
    rewrite length_map, length_seq. lia.
  - intros page Hin. apply filter_In in Hin as [Hin Hle].
    apply Z.leb_le in Hle. apply in_map_iff in Hin as [i [<- _]]. lia.
  - apply filter_In. split; [|apply Z.leb_le; lia].
    apply in_map_iff.
    destruct (Z.eq_dec (DataTable.currentPage t) 1) as [Hone | Hmore].
    + exists 0. split; [lia|]. apply in_seq. lia.
    + exists 1. split; [lia|]. apply in_seq. lia.
Qed.

Lemma page_buttons_are_pages_and_hold_the_current_one_witness :
  In 1%Z (App.pageButtons
            (host := AsciiHost.host)
            {| Types.headers := ["id"; "title"];
               Types.rows := CsvUpload.allocate 0 (map Samples.numbered (seq 0 51));
               Types.originalRows := [] |}
            DataTable.initialState).
Proof.
  apply (page_buttons_are_pages_and_hold_the_current_one
           (host := AsciiHost.host)
           {| Types.headers := ["id"; "title"];
              Types.rows := CsvUpload.allocate 0 (map Samples.numbered (seq 0 51));
              Types.originalRows := [] |}
           DataTable.initialState).
  - vm_compute. reflexivity.
  - vm_compute. split; discriminate.
Defined.
